(** * PurePyShpWrapper: the PySAL ShapeFile reader and writer

    A shallow embedding of [pysal/core/IOPlugins/pyShpIO.py].  Python
    objects become records and inductive types, dictionaries with a
    fixed set of string keys become records of optional fields,
    exceptions become the [Raise] branch of an outcome type, and the
    mutable attributes of [self] are threaded explicitly.

    The collaborators that the module imports but does not define
    ([pysal.cg], [shp_file], [GeoSeries]) are parameters of the section
    or small definitions marked as modelled from the specification. *)

From Stdlib Require Import ZArith List String Bool Sorted Lia.
Import ListNotations.
Local Open Scope string_scope.
Local Open Scope list_scope.
Local Open Scope Z_scope.

Set Implicit Arguments.

(** ** Exceptions and outcomes *)

Inductive PyExc : Type :=
| KeyError (key : string)
| IndexError
| TypeError
| NameError (name : string)
| AttributeError (attr : string)
| StopIteration
| NotImplementedError.

Inductive Outcome (A : Type) : Type :=
| Ok (a : A)
| Raise (e : PyExc).

Arguments Ok {A} a.
Arguments Raise {A} e.

Definition bind {A B : Type} (m : Outcome A) (k : A -> Outcome B) : Outcome B :=
  match m with
  | Ok a => k a
  | Raise e => Raise e
  end.

Notation "x <- m ;; k" := (bind m (fun x => k))
  (at level 61, m at next level, right associativity).

(** ** The module namespace

    The names bound at module level: the [import] statements of lines
    11-17 and the assignments of lines 6-27.  Line 10, [import pysal],
    is commented out, and [import pysal.cg as cg] binds [cg] only. *)

Definition module_globals : list string :=
  [ "__author__"; "__credits__"; "__all__"; "FileIOBase"; "shp_file"; "cg";
    "GeoSeries"; "warn"; "unittest"; "STRING_TO_TYPE"; "TYPE_TO_STRING";
    "PurePyShpWrapper" ].

(** Looking up a global name in a namespace. *)
Definition load_global (globals : list string) (name : string) : Outcome unit :=
  if existsb (String.eqb name) globals then Ok tt
  else Raise (NameError name).

(** ** Built-in sequence operations *)

Definition slice_bound (len i : Z) : Z :=
  if i <? 0 then Z.max 0 (i + len) else Z.min i len.

(** [l[lo:hi]], where [None] stands for an omitted or [None] bound. *)
Definition py_slice {A : Type} (l : list A) (lo hi : option Z) : list A :=
  let len := Z.of_nat (List.length l) in
  let a := match lo with None => 0 | Some i => slice_bound len i end in
  let b := match hi with None => len | Some j => slice_bound len j end in
  firstn (Z.to_nat (b - a)) (skipn (Z.to_nat a) l).

(** [l[i]] *)
Definition py_getitem {A : Type} (l : list A) (i : Z) : Outcome A :=
  let len := Z.of_nat (List.length l) in
  let j := if i <? 0 then i + len else i in
  if (0 <=? j) && (j <? len) then
    match nth_error l (Z.to_nat j) with
    | Some a => Ok a
    | None => Raise IndexError
    end
  else Raise IndexError.

(** [xrange(n)] *)
Definition xrange (n : Z) : list Z := map Z.of_nat (seq 0 (Z.to_nat n)).

(** A list comprehension whose element expression may raise. *)
Fixpoint comprehension {A B : Type} (f : A -> Outcome B) (l : list A)
  : Outcome (list B) :=
  match l with
  | [] => Ok []
  | a :: l' => b <- f a ;; bs <- comprehension f l' ;; Ok (b :: bs)
  end.

Definition len {A : Type} (l : list A) : Z := Z.of_nat (List.length l).

(** Truth value of a list: [if hole], [if not holes]. *)
Definition list_truth {A : Type} (l : list A) : bool :=
  match l with [] => false | _ :: _ => true end.

(** [d[key]] on a dictionary given as an association list *)
Fixpoint dict_get {V : Type} (d : list (string * V)) (key : string) : option V :=
  match d with
  | [] => None
  | (k, v) :: d' => if String.eqb k key then Some v else dict_get d' key
  end.

Arguments dict_get {V} d key : simpl never.

(** ** Geometry classes and the type tables (lines 19-22) *)

Inductive GeomClass : Type := cg_Point | cg_Chain | cg_Polygon.

Definition STRING_TO_TYPE : list (string * GeomClass) :=
  [ ("POLYGON", cg_Polygon); ("POINT", cg_Point); ("POINTM", cg_Point);
    ("POINTZ", cg_Point); ("ARC", cg_Chain); ("POLYGONZ", cg_Polygon) ].

Definition TYPE_TO_STRING (c : GeomClass) : string :=
  match c with
  | cg_Polygon => "POLYGON"
  | cg_Point => "POINT"
  | cg_Chain => "ARC"
  end.

(** ** Diagnostics

    The two messages of [_read]; the integer is the value substituted
    for [%d].  [Warn] is a call of [warnings.warn] with category
    [RuntimeWarning], [Print] is the [print] statement of line 186. *)

Inductive Message : Type :=
| topology_fixed (n : Z)   (* "SHAPEFILE WARNING: Polygon %d topology has been fixed. (ccw -> cw)" *)
| zero_parts (n : Z).      (* "Polygon %d has zero parts" *)

Inductive Event : Type :=
| Warn (msg : Message)
| Print (msg : Message).

Section PyShpIO.

(** Coordinates are opaque to the wrapper: it copies them and hands
    rings to [cg.is_clockwise]. *)
Variable coord : Type.

Definition vertex : Type := (coord * coord)%type.

(** ** Geometries ([pysal.cg], not defined in this module)

    A [Point] is a tuple-like object with at least two coordinates
    ([len(shape)] is [2 + length more]) that may carry the attributes
    [Z] and [M] assigned by [_read]. *)
Inductive Geometry : Type :=
| Point (x y : coord) (more : list coord) (attr_Z attr_M : option coord)
| Chain (parts : list (list vertex))
| Polygon (parts holes : list (list vertex)).

Definition type_of (shape : Geometry) : GeomClass :=
  match shape with
  | Point _ _ _ _ _ => cg_Point
  | Chain _ => cg_Chain
  | Polygon _ _ => cg_Polygon
  end.

(** [pysal.cg.is_clockwise] *)
Variable is_clockwise : list vertex -> bool.

(** [shape.bounding_box] as (left, lower, right, upper).  It is total
    here: whether [pysal.cg] has a bounding box for a geometry
    without any vertex is not modelled. *)
Variable bounding_box : Geometry -> coord * coord * coord * coord.

(** [shp_file.SHAPE_TYPES] *)
Variable SHAPE_TYPES : list (string * Z).

(** Truth value of a geometry object ([if res] on line 212). *)
Variable truth : Geometry -> bool.

(** [shape.__geo_interface__] *)
Variable GeoInterface : Type.
Variable geo_interface : Geometry -> GeoInterface.

(** The argument forms with which [_read] calls [self.type]. *)
Inductive CtorArg : Type :=
| a_pair (x y : coord)                    (* (rec['X'], rec['Y']) *)
| a_flat (vertices : list vertex)         (* rec['Vertices'] *)
| a_nested (parts : list (list vertex)).  (* parts, [[]] *)

(** Modelled from the spec: the constructors of [cg.Point], [cg.Chain]
    and [cg.Polygon], which live in [pysal.cg].  A point is built from
    its coordinates; a polyline from its parts; a polygon from its
    shell rings and hole rings, a flat vertex list being a single
    part and an absent [holes] argument giving no holes.  Every
    argument of these forms is accepted: whether [pysal.cg] refuses
    some of them, a ring without vertex say, is not modelled. *)
Definition construct (c : GeomClass) (a : CtorArg)
           (holes : option (list (list vertex))) : Outcome Geometry :=
  match c, a, holes with
  | cg_Point, a_pair x y, None => Ok (Point x y [] None None)
  | cg_Chain, a_flat vs, None => Ok (Chain [vs])
  | cg_Chain, a_nested ps, None => Ok (Chain ps)
  | cg_Polygon, a_flat vs, hs =>
      Ok (Polygon [vs] match hs with Some h => h | None => [] end)
  | cg_Polygon, a_nested ps, hs =>
      Ok (Polygon ps match hs with Some h => h | None => [] end)
  | _, _, _ => Raise TypeError
  end.

(** ** Raw records

    The dictionary [rec] exchanged with [shp_file]: one optional
    field per key, [None] when the key is absent. *)
Record RawRecord : Type := mkRawRecord {
  Shape_Type : option Z;
  X : option coord;
  Y : option coord;
  M : option coord;
  Z_ : option coord;
  BBOX_Xmin : option coord;
  BBOX_Ymin : option coord;
  BBOX_Xmax : option coord;
  BBOX_Ymax : option coord;
  NumParts : option Z;
  Parts_Index : option (list Z);
  NumPoints : option Z;
  Vertices : option (list vertex)
}.

(** [rec = {}] *)
Definition empty_rec : RawRecord :=
  mkRawRecord None None None None None None None None None None None None None.

(** [rec[key]] *)
Definition getitem {A : Type} (key : string) (field : option A) : Outcome A :=
  match field with
  | Some v => Ok v
  | None => Raise (KeyError key)
  end.

(** Modelled from the spec: the record-access collaborator
    [pysal.core.util.shp_file]: its declared type, its records in
    file order, [get_shape] signalling out-of-range with [IndexError]
    and [add_shape] appending. *)
Record shp_file : Type := mk_shp_file {
  file_type : string;
  shapes : list RawRecord
}.

Definition get_shape (f : shp_file) (i : Z) : Outcome RawRecord :=
  if (0 <=? i) && (i <? len (shapes f)) then
    match nth_error (shapes f) (Z.to_nat i) with
    | Some r => Ok r
    | None => Raise IndexError
    end
  else Raise IndexError.

Definition add_shape (f : shp_file) (r : RawRecord) : shp_file :=
  mk_shp_file (file_type f) (shapes f ++ [r]).

(** ** The wrapper object *)

(** [self.type] is a geometry class in read mode (line 95) and a
    type string in write mode (line 104). *)
Inductive TypeAttr : Type :=
| type_unset
| type_class (c : GeomClass)
| type_string (s : string).

(** What [self.write] is bound to: the method inherited from
    [FileIOBase], or one of the two private methods (lines 101, 111). *)
Inductive WriteAttr : Type :=
| write_inherited
| write_firstWrite
| write_writer.

Record Session : Type := mkSession {
  mode : string;
  pos : Z;
  dataObj : option shp_file;
  type : TypeAttr;
  write_attr : WriteAttr
}.

Definition set_pos (self : Session) (v : Z) : Session :=
  mkSession (mode self) v (dataObj self) (type self) (write_attr self).

Definition set_dataObj (self : Session) (d : shp_file) : Session :=
  mkSession (mode self) (pos self) (Some d) (type self) (write_attr self).

Definition set_type (self : Session) (t : TypeAttr) : Session :=
  mkSession (mode self) (pos self) (dataObj self) t (write_attr self).

Definition set_write (self : Session) (w : WriteAttr) : Session :=
  mkSession (mode self) (pos self) (dataObj self) (type self) w.

(** The result of a method call: outcome, the object afterwards, and
    the diagnostics emitted during the call. *)
Definition Eff (A : Type) : Type := (Outcome A * Session * list Event)%type.

(** [__open] (lines 90-98); [disk] is the file found at
    [self.datapath].  The copies of the header and of the bounding box
    kept on [self] play no part in reading and are left out. *)
Definition __open (disk : shp_file) (self : Session) : Outcome unit * Session :=
  let self := set_dataObj self disk in
  match dict_get STRING_TO_TYPE (file_type disk) with
  | Some c => (Ok tt, set_type self (type_class c))
  | None => (Raise TypeError, self)
  end.

(** [__create] (lines 100-101) *)
Definition __create (self : Session) : Session :=
  set_write self write_firstWrite.

(** [__init__] (lines 66-74) *)
Definition __init__ (disk : shp_file) (mode : string) : Outcome unit * Session :=
  let self := mkSession mode 0 None type_unset write_inherited in
  if String.eqb mode "r" || String.eqb mode "rb" then __open disk self
  else if String.eqb mode "w" || String.eqb mode "wb" then (Ok tt, __create self)
  else (Ok tt, self).

(** [__len__] (lines 84-88) *)
Definition __len__ (self : Session) : Z :=
  match dataObj self with
  | Some d => len (shapes d)
  | None => 0
  end.

(** ** Writing *)

(** [len(shape)] for a point (lines 106, 108, 123, 125) *)
Definition point_len (more : list coord) : Z := 2 + len more.

(** The part index loop of lines 141-143: [partsIndex = [0]], then
    for each length [l] but the last, append [partsIndex[-1] + l]. *)
Definition index_step (partsIndex : list Z) (l : Z) : list Z :=
  partsIndex ++ [last partsIndex 0 + l].

Definition parts_index (all_parts : list (list vertex)) : list Z :=
  fold_left index_step (removelast (map (@len vertex) all_parts)) [0].

(** [[hole[::-1] for hole in shape.holes if hole]] (line 134) *)
Definition reversed_holes (holes : list (list vertex)) : list (list vertex) :=
  map (@rev vertex) (filter (@list_truth vertex) holes).

(** The record built by lines 118-148 for a shape of type string [t].
    [__writer] reaches these lines only when [t] is the type string of
    the class of [shape]; the other combinations raise as an object
    without the attribute or the indexing would. *)
Definition encode (t : string) (shape : Geometry) : Outcome RawRecord :=
  st <- getitem t (dict_get SHAPE_TYPES t) ;;
  if String.eqb t "POINT" then
    match shape with
    | Point x y more _ _ =>
        Ok (mkRawRecord (Some st) (Some x) (Some y)
              (if point_len more >? 2 then nth_error more 0 else None)
              (if point_len more >? 3 then nth_error more 1 else None)
              None None None None None None None None)
    | _ => Raise TypeError
    end
  else
    match shape with
    | Point _ _ _ _ _ => Raise (AttributeError "bounding_box")
    | Chain parts | Polygon parts _ =>
        let '(bb_left, bb_lower, bb_right, bb_upper) := bounding_box shape in
        num_all <-
          (if String.eqb t "POLYGON" then
             match shape with
             | Polygon _ shape_holes =>
                 let holes := reversed_holes shape_holes in
                 Ok (len parts + len holes, parts ++ holes)
             | _ => Raise (AttributeError "holes")
             end
           else Ok (len parts, parts)) ;;
        let '(num, all_parts) := num_all in
        let partsIndex := parts_index all_parts in
        let verts := List.concat all_parts in
        Ok (mkRawRecord (Some st) None None None None
              (Some bb_left) (Some bb_lower) (Some bb_right) (Some bb_upper)
              (Some num) (Some partsIndex) (Some (len verts)) (Some verts))
    end.

(** [__writer] (lines 114-150) *)
Definition __writer (shape : Geometry) (self : Session) : Eff unit :=
  match type self with
  | type_unset => (Raise (AttributeError "type"), self, [])
  | type_class _ => (Raise TypeError, self, [])
  | type_string t =>
      if negb (String.eqb (TYPE_TO_STRING (type_of shape)) t) then
        (Raise TypeError, self, [])
      else
        match encode t shape with
        | Raise e => (Raise e, self, [])
        | Ok rec =>
            match dataObj self with
            | None => (Raise (AttributeError "add_shape"), self, [])
            | Some d =>
                let self := set_dataObj self (add_shape d rec) in
                (Ok tt, set_pos self (pos self + 1), [])
            end
        end
  end.

(** [__firstWrite] (lines 103-112); its last line calls the method
    just bound to [self.write], which is [__writer]. *)
Definition __firstWrite (shape : Geometry) (self : Session) : Eff unit :=
  let t := TYPE_TO_STRING (type_of shape) in
  let t :=
    if String.eqb t "POINT" then
      match shape with
      | Point _ _ more _ _ =>
          let t := if point_len more =? 3 then "POINTM" else t in
          if point_len more =? 4 then "POINTZ" else t
      | _ => t
      end
    else t in
  let self := set_type self (type_string t) in
  let self := set_dataObj self (mk_shp_file t []) in
  let self := set_write self write_writer in
  __writer shape self.

(** [self.write(shape)]: the attribute is rebound on lines 101 and
    111 to the two methods above.  Before that it is the method
    inherited from [FileIOBase], which this module does not define; a
    call of it is taken to raise, a session in read mode accepting no
    write. *)
Definition write (shape : Geometry) (self : Session) : Eff unit :=
  match write_attr self with
  | write_firstWrite => __firstWrite shape self
  | write_writer => __writer shape self
  | write_inherited => (Raise NotImplementedError, self, [])
  end.

(** ** Reading *)

(** [self.type(...)] *)
Definition call_type (ty : TypeAttr) (a : CtorArg)
           (holes : option (list (list vertex))) : Outcome Geometry :=
  match ty with
  | type_class c => construct c a holes
  | type_string _ => Raise TypeError
  | type_unset => Raise (AttributeError "type")
  end.

(** [shp.Z = v] and [shp.M = v] (lines 163-164); only points carry
    these attributes in the model, and [self.type] is [cg.Point]
    whenever the declared type is POINTZ. *)
Definition set_attr_Z (shp : Geometry) (v : coord) : Geometry :=
  match shp with
  | Point x y more _ m => Point x y more (Some v) m
  | _ => shp
  end.

Definition set_attr_M (shp : Geometry) (v : coord) : Geometry :=
  match shp with
  | Point x y more z _ => Point x y more z (Some v)
  | _ => shp
  end.

(** Lines 167-170: the vertex run of each part. *)
Definition split_parts (rec : RawRecord) (n : Z) : Outcome (list (list vertex)) :=
  pi <- getitem "Parts Index" (Parts_Index rec) ;;
  let partsIndex := map (@Some Z) pi ++ [None] in
  comprehension
    (fun i =>
       vs <- getitem "Vertices" (Vertices rec) ;;
       a <- py_getitem partsIndex i ;;
       b <- py_getitem partsIndex (i + 1) ;;
       Ok (py_slice vs a b))
    (xrange n).

(** Lines 172-174: shells are the parts that are clockwise, holes the
    others, each in file order. *)
Definition shells_of (parts : list (list vertex)) : list (list vertex) :=
  map fst (filter (fun pc => snd pc) (combine parts (map is_clockwise parts))).

Definition holes_of (parts : list (list vertex)) : list (list vertex) :=
  map fst (filter (fun pc => negb (snd pc)) (combine parts (map is_clockwise parts))).

(** Lines 159-192 of [_read]: the geometry built from [rec] once
    [self.pos] has been advanced to [p], with the diagnostics emitted
    on the way.  [ftype] is [self.dataObj.type()]; [globals] is the
    namespace in which the body runs, where line 172 looks up
    [pysal] and line 183 looks up [cg]. *)
Definition decode_in (globals : list string) (ftype : string) (ty : TypeAttr)
           (p : Z) (rec : RawRecord) : Outcome Geometry * list Event :=
  if String.eqb ftype "POINT" then
    (x <- getitem "X" (X rec) ;;
     y <- getitem "Y" (Y rec) ;;
     call_type ty (a_pair x y) None, [])
  else if String.eqb ftype "POINTZ" then
    (x <- getitem "X" (X rec) ;;
     y <- getitem "Y" (Y rec) ;;
     shp <- call_type ty (a_pair x y) None ;;
     z <- getitem "Z" (Z_ rec) ;;
     let shp := set_attr_Z shp z in
     m <- getitem "M" (M rec) ;;
     Ok (set_attr_M shp m), [])
  else
    match getitem "NumParts" (NumParts rec) with
    | Raise e => (Raise e, [])
    | Ok n =>
        if n >? 1 then
          (parts <- split_parts rec n ;;
           if String.eqb ftype "POLYGON" then
             _ <- load_global globals "pysal" ;;
             let vertices := shells_of parts in
             let holes := holes_of parts in
             let holes := if negb (list_truth holes) then None else Some holes in
             call_type ty (a_nested vertices) holes
           else
             call_type ty (a_nested parts) None, [])
        else if n =? 1 then
          match getitem "Vertices" (Vertices rec) with
          | Raise e => (Raise e, [])
          | Ok vertices =>
              if String.eqb ftype "POLYGON" then
                match load_global globals "cg" with
                | Raise e => (Raise e, [])
                | Ok _ =>
                    (call_type ty (a_flat vertices) None,
                     if negb (is_clockwise vertices)
                     then [Warn (topology_fixed p); Print (topology_fixed p)]
                     else [])
                end
              else (call_type ty (a_flat vertices) None, [])
          end
        else
          (call_type ty (a_nested [[]]) None, [Warn (zero_parts p)])
    end.

(** The body as it runs in the module's own namespace. *)
Definition decode : string -> TypeAttr -> Z -> RawRecord
                    -> Outcome Geometry * list Event :=
  decode_in module_globals.

(** [_read] (lines 153-198) *)
Definition _read (self : Session) : Eff (option Geometry) :=
  match dataObj self with
  | None => (Raise (AttributeError "get_shape"), self, [])
  | Some d =>
      match get_shape d (pos self) with
      | Raise IndexError => (Ok None, self, [])
      | Raise e => (Raise e, self, [])
      | Ok rec =>
          let self := set_pos self (pos self + 1) in
          let '(r, ev) := decode (file_type d) (type self) (pos self) rec in
          (shp <- r ;; Ok (Some shp), self, ev)
      end
  end.

(** What [read] returns: [None] or a [GeoSeries] of interfaces. *)
Inductive ReadResult : Type :=
| PyNone
| GeoSeries (geoms : list GeoInterface).

(** The [while 1] loop of lines 210-215.  [None] means the fuel ran
    out before the loop left through [break]. *)
Fixpoint read_while (fuel : nat) (self : Session) (result : list Geometry)
  : option (Eff (list Geometry)) :=
  match fuel with
  | O => None
  | S fuel' =>
      let '(r, self, ev) := _read self in
      match r with
      | Raise e => Some (Raise e, self, ev)
      | Ok None => Some (Ok result, self, ev)
      | Ok (Some res) =>
          if truth res then
            match read_while fuel' self (result ++ [res]) with
            | Some (r', self', ev') => Some (r', self', ev ++ ev')
            | None => None
            end
          else Some (Ok result, self, ev)
      end
  end.

(** The [for i in range(0, n)] loop of lines 224-228. *)
Fixpoint read_for (n : nat) (self : Session) (result : list (option Geometry))
  : Eff (list (option Geometry)) :=
  match n with
  | O => (Ok result, self, [])
  | S n' =>
      let '(r, self, ev) := _read self in
      match r with
      | Raise StopIteration => (Ok result, self, ev)
      | Raise e => (Raise e, self, ev)
      | Ok res =>
          let '(r', self', ev') := read_for n' self (result ++ [res]) in
          (r', self', ev ++ ev')
      end
  end.

(** [i.__geo_interface__] on an element of [result] *)
Definition geo_interface_of (i : option Geometry) : Outcome GeoInterface :=
  match i with
  | Some shp => Ok (geo_interface shp)
  | None => Raise (AttributeError "__geo_interface__")
  end.

(** [read] (lines 200-230); [fuel] bounds the [while] loop. *)
Definition read (fuel : nat) (n : Z) (self : Session) : option (Eff ReadResult) :=
  if n <? 0 then
    match read_while fuel self [] with
    | None => None
    | Some (Raise e, self, ev) => Some (Raise e, self, ev)
    | Some (Ok result, self, ev) =>
        let self := set_pos self 0 in
        Some (Ok (GeoSeries (map geo_interface result)), self, ev)
    end
  else if n =? 0 then Some (Ok PyNone, self, [])
  else
    match read_for (Z.to_nat n) self [] with
    | (Raise e, self, ev) => Some (Raise e, self, ev)
    | (Ok result, self, ev) =>
        Some (geoms <- comprehension geo_interface_of result ;;
              Ok (GeoSeries geoms), self, ev)
    end.

(** ** Notions used in the statements *)

(** [self] reads the file [d]: the state [__open] leaves behind,
    with the cursor anywhere. *)
Definition opened (d : shp_file) (self : Session) : Prop :=
  dataObj self = Some d /\
  exists c, dict_get STRING_TO_TYPE (file_type d) = Some c /\
            type self = type_class c.

(** The sessions whose type a successful write of a geometry of
    class [c] has locked, and every session reached from them by
    further writes, successful or not. *)
Inductive locked_by (c : GeomClass) : Session -> Prop :=
| locked_write : forall self shape self1 ev,
    write shape self = (Ok tt, self1, ev) ->
    type_of shape = c ->
    locked_by c self1
| locked_next : forall self shape r self' ev,
    locked_by c self ->
    write shape self = (r, self', ev) ->
    locked_by c self'.

(** The state a locked session is in: [self.type] is the type string
    of class [c], [self.write] is [__writer], the file is open and the
    shape type table knows the type. *)
Definition type_locked (c : GeomClass) (self : Session) : Prop :=
  type self = type_string (TYPE_TO_STRING c)
  /\ write_attr self = write_writer
  /\ (exists d, dataObj self = Some d)
  /\ exists st, dict_get SHAPE_TYPES (TYPE_TO_STRING c) = Some st.

(** What [decode] makes of the records [recs] when they are read
    one after the other with the cursor at [p] before the first. *)
Fixpoint decode_from (ftype : string) (ty : TypeAttr) (p : Z)
         (recs : list RawRecord) : list (Outcome Geometry * list Event) :=
  match recs with
  | [] => []
  | rec :: recs' =>
      decode ftype ty (p + 1) rec :: decode_from ftype ty (p + 1) recs'
  end.

(** The records at and after position [p]. *)
Definition remaining (d : shp_file) (p : Z) : list RawRecord :=
  skipn (Z.to_nat p) (shapes d).

(** The offset at which each part starts: the running sum of the
    lengths of the parts before it. *)
Fixpoint part_offsets (start : Z) (lengths : list Z) : list Z :=
  match lengths with
  | [] => []
  | l :: lengths' => start :: part_offsets (start + l) lengths'
  end.

(** The parts written for a polygon: shells, then the non-empty
    holes reversed. *)
Definition polygon_parts (shells holes : list (list vertex)) : list (list vertex) :=
  shells ++ reversed_holes holes.

(** The calls of [warnings.warn] among the diagnostics. *)
Definition warnings_of (ev : list Event) : list Message :=
  flat_map (fun e => match e with Warn m => [m] | Print _ => [] end) ev.

(** ** Writing a geometry and reading it back *)

(** The shapes for which [__firstWrite] keeps the type string of the
    class: every shape but a point of three or four coordinates. *)
Definition plain (shape : Geometry) : Prop :=
  match shape with
  | Point _ _ more _ _ => List.length more <> 1%nat /\ List.length more <> 2%nat
  | _ => True
  end.

(** The file left by writing [shape] to a new session in write mode. *)
Definition written_file (shape : Geometry) : Outcome shp_file :=
  let self := snd (__init__ (mk_shp_file "" []) "w") in
  match write shape self with
  | (Ok _, self', _) =>
      match dataObj self' with
      | Some d => Ok d
      | None => Raise (AttributeError "dataObj")
      end
  | (Raise e, _, _) => Raise e
  end.

(** The first read of a new session in read mode over the file [d]. *)
Definition read_back (d : shp_file) : Eff (option Geometry) :=
  _read (snd (__init__ d "r")).

(** Write, then read back: the outcome and the diagnostics. *)
Definition round_trip (shape : Geometry) : Outcome (option Geometry) * list Event :=
  match written_file shape with
  | Ok d => let '(r, _, ev) := read_back d in (r, ev)
  | Raise e => (Raise e, [])
  end.

(** ** Closing *)

(** A call made on the record-access collaborator. *)
Inductive FileCall : Type :=
| file_close (d : shp_file).

(** [close] (lines 232-234), run in the namespace [globals]: line 233
    closes the file, then line 234 looks up [pysal] to reach the
    inherited [close].  That method is not defined in this module and
    is taken to return.  The calls made on the file are returned
    beside the result. *)
Definition close_in (globals : list string) (self : Session)
  : Eff unit * list FileCall :=
  match dataObj self with
  | None => ((Raise (AttributeError "close"), self, []), [])
  | Some d =>
      ((_ <- load_global globals "pysal" ;; Ok tt, self, []), [file_close d])
  end.

Definition close : Session -> Eff unit * list FileCall :=
  close_in module_globals.

(** ** Sessions in write mode *)

(** The sessions reached from a new session in write mode by any
    sequence of writes, successful or not. *)
Inductive written : Session -> Prop :=
| written_new : forall disk m self,
    m = "w" \/ m = "wb" ->
    __init__ disk m = (Ok tt, self) ->
    written self
| written_next : forall self shape r self' ev,
    written self ->
    write shape self = (r, self', ev) ->
    written self'.

(** A record has the keys that [_read] looks up in a file of type
    string [t], and the shape type code of [t]. *)
Definition record_fits (t : string) (rec : RawRecord) : Prop :=
  Shape_Type rec = dict_get SHAPE_TYPES t
  /\ Shape_Type rec <> None
  /\ if String.eqb t "POINT"
     then X rec <> None /\ Y rec <> None /\ NumParts rec = None
     else exists n pi vs,
         NumParts rec = Some n
         /\ Parts_Index rec = Some pi
         /\ len pi = Z.max 1 n
         /\ Vertices rec = Some vs
         /\ NumPoints rec = Some (len vs).

(** The state of a session in write mode: before the first write
    nothing is open and the cursor is at 0; afterwards the cursor
    counts the records of the file, [self.type] is the type of the
    file, and every record fits that type. *)
Definition write_state (self : Session) : Prop :=
  match dataObj self with
  | None => pos self = 0 /\ write_attr self = write_firstWrite
  | Some d =>
      pos self = len (shapes d)
      /\ write_attr self = write_writer
      /\ type self = type_string (file_type d)
      /\ Forall (record_fits (file_type d)) (shapes d)
  end.

(** A contiguous run of [vs]. *)
Definition segment_of {A : Type} (vs part : list A) : Prop :=
  exists j k, part = firstn k (skipn j vs).

End PyShpIO.

(** ** A concrete instance

    Integer coordinates and concrete collaborators, on which the
    general statements below are exercised. *)
Module Fixture.

(** Modelled from the spec: the RingClassifier, [cg.is_clockwise],
    which lives in [pysal.cg].  Twice the signed area by the shoelace
    formula over consecutive vertex pairs, wrap-around included; a
    ring is clockwise when the area is negative. *)
Fixpoint shoelace (first : Z * Z) (ring : list (Z * Z)) : Z :=
  match ring with
  | [] => 0
  | a :: rest =>
      let b := match rest with [] => first | b :: _ => b end in
      (fst a * snd b - snd a * fst b) + shoelace first rest
  end.

Definition signed_area2 (ring : list (Z * Z)) : Z :=
  match ring with
  | [] => 0
  | first :: _ => shoelace first ring
  end.

Definition is_clockwise (ring : list (Z * Z)) : bool := signed_area2 ring <? 0.

(** Modelled from the spec: the bounding box, the minimum and maximum
    over all vertices of the geometry. *)
Definition extent (vs : list (Z * Z)) : Z * Z * Z * Z :=
  match vs with
  | [] => (0, 0, 0, 0)
  | (x, y) :: rest =>
      fold_left (fun '(l, b, r, t) '(x, y) =>
                   (Z.min l x, Z.min b y, Z.max r x, Z.max t y))
                rest (x, y, x, y)
  end.

Definition bounding_box (shape : Geometry Z) : Z * Z * Z * Z :=
  match shape with
  | Point x y _ _ _ => (x, y, x, y)
  | Chain parts => extent (List.concat parts)
  | Polygon parts holes => extent (List.concat (parts ++ holes))
  end.

(** The shape type codes of the file format. *)
Definition SHAPE_TYPES : list (string * Z) :=
  [ ("POINT", 1); ("ARC", 3); ("POLYGON", 5); ("POINTZ", 11); ("POINTM", 21) ].

(** Every geometry object counts as true. *)
Definition truth (shape : Geometry Z) : bool := true.

Definition geo_interface (shape : Geometry Z) : Geometry Z := shape.

Definition write := write bounding_box SHAPE_TYPES.
Definition _read := _read is_clockwise.
Definition read := read is_clockwise truth geo_interface.

(** A new session in write mode; no file is consulted. *)
Definition new_writer : Session Z :=
  snd (__init__ (mk_shp_file "" []) "w").

(** A session in read mode over the file [disk]. *)
Definition new_reader (disk : shp_file Z) : Session Z :=
  snd (__init__ disk "r").

(** The session after writing [shapes] one after the other,
    whatever each write returns. *)
Definition write_all (shapes : list (Geometry Z)) (self : Session Z) : Session Z :=
  fold_left (fun self shape => snd (fst (write shape self))) shapes self.

(** The file a session holds. *)
Definition file_of (self : Session Z) : shp_file Z :=
  match dataObj self with
  | Some d => d
  | None => mk_shp_file "" []
  end.

Definition encode := encode bounding_box SHAPE_TYPES.
Definition round_trip := round_trip is_clockwise bounding_box SHAPE_TYPES.

Definition cw_triangle : list (Z * Z) := [(0, 0); (0, 4); (4, 0)].
Definition ccw_triangle : list (Z * Z) := [(0, 0); (4, 0); (0, 4)].
Definition cw_square : list (Z * Z) := [(10, 10); (10, 20); (20, 20); (20, 10)].
Definition small_cw : list (Z * Z) := [(11, 11); (11, 12); (12, 11)].

Definition point_12 : Geometry Z := Point 1 2 [] None None.
Definition point_34 : Geometry Z := Point 3 4 [] None None.
Definition point_56 : Geometry Z := Point 5 6 [] None None.

(** A file of three points, as the writer leaves it. *)
Definition points_file : shp_file Z :=
  file_of (write_all [point_12; point_34; point_56] new_writer).

(** A POLYGON file whose only record is a counter-clockwise ring. *)
Definition ccw_polygon_file : shp_file Z :=
  file_of (write_all [Polygon [ccw_triangle] []] new_writer).

(** A POLYGON file whose only record has a clockwise shell and a hole,
    which the writer reverses into counter-clockwise order. *)
Definition holed_polygon_file : shp_file Z :=
  file_of (write_all [Polygon [cw_square] [small_cw]] new_writer).

(** A POLYGON file whose only record has two counter-clockwise parts. *)
Definition all_ccw_file : shp_file Z :=
  file_of (write_all [Polygon [ccw_triangle] [small_cw]] new_writer).

(** A polyline record that announces no part and has no vertex. *)
Definition no_part_arc_record : RawRecord Z :=
  mkRawRecord (Some 3) None None None None
              (Some 0) (Some 0) (Some 0) (Some 0)
              (Some 0) (Some []) (Some 0) (Some []).

(** An ARC file whose only record has no part. *)
Definition no_part_arc_file : shp_file Z :=
  mk_shp_file "ARC" [no_part_arc_record].

(** A POINTM file with one record: X, Y and M. *)
Definition pointm_record : RawRecord Z :=
  mkRawRecord (Some 21) (Some 1) (Some 2) (Some 3) None
              None None None None None None None None.

Definition pointm_file : shp_file Z := mk_shp_file "POINTM" [pointm_record].

(** A POINTZ file with one record: X, Y, M and Z. *)
Definition pointz_record : RawRecord Z :=
  mkRawRecord (Some 11) (Some 1) (Some 2) (Some 3) (Some 4)
              None None None None None None None None.

Definition pointz_file : shp_file Z := mk_shp_file "POINTZ" [pointz_record].

(** The session after a first write of a point. *)
Definition point_session : Session Z := write_all [point_12] new_writer.

(** The session after a point, a refused polygon and a second point. *)
Definition mixed_session : Session Z :=
  write_all [point_12; Polygon [cw_triangle] []; point_34] new_writer.

(** An ARC file of one polyline of two parts, as the writer leaves it. *)
Definition two_part_arc_file : shp_file Z :=
  file_of (write_all [Chain [cw_triangle; cw_square]] new_writer).

(** The record of the holed polygon in a file declared POLYGONZ. *)
Definition polygonz_file : shp_file Z :=
  mk_shp_file "POLYGONZ" (shapes holed_polygon_file).

(** An ARC file whose record has a single part. *)
Definition one_part_arc_file : shp_file Z :=
  file_of (write_all [Chain [ccw_triangle]] new_writer).

(** A record that announces three parts and lists two offsets. *)
Definition short_index_record : RawRecord Z :=
  mkRawRecord (Some 3) None None None None
              (Some 0) (Some 0) (Some 20) (Some 20)
              (Some 3) (Some [0; 4]) (Some 7) (Some (cw_square ++ cw_triangle)).

Definition short_index_file : shp_file Z :=
  mk_shp_file "ARC" [short_index_record].

(** A record whose offsets are negative, decreasing and too large. *)
Definition wild_index_record : RawRecord Z :=
  mkRawRecord (Some 3) None None None None
              (Some 0) (Some 0) (Some 20) (Some 20)
              (Some 3) (Some [5; -2; 100]) (Some 7) (Some (cw_square ++ cw_triangle)).

(** A point record without the key Y. *)
Definition no_y_record : RawRecord Z :=
  mkRawRecord (Some 1) (Some 1) None None None
              None None None None None None None None.

(** A POINT file with a record that lacks Y between two good ones. *)
Definition gappy_points_file : shp_file Z :=
  mk_shp_file "POINT"
    [nth 0 (shapes points_file) (empty_rec Z); no_y_record;
     nth 2 (shapes points_file) (empty_rec Z)].

End Fixture.

(** * Properties *)

Section Properties.

Set Default Proof Using "Type".

Variable coord : Type.
Variable is_clockwise : list (vertex coord) -> bool.
Variable bounding_box : Geometry coord -> coord * coord * coord * coord.
Variable SHAPE_TYPES : list (string * Z).
Variable truth : Geometry coord -> bool.
Variable GeoInterface : Type.
Variable geo_interface : Geometry coord -> GeoInterface.

Local Abbreviation decode := (decode is_clockwise).
Local Abbreviation decode_in := (decode_in is_clockwise).
Local Abbreviation _read := (_read is_clockwise).
Local Abbreviation read := (read is_clockwise truth geo_interface).
Local Abbreviation encode := (encode bounding_box SHAPE_TYPES).
Local Abbreviation __writer := (__writer bounding_box SHAPE_TYPES).
Local Abbreviation __firstWrite := (__firstWrite bounding_box SHAPE_TYPES).
Local Abbreviation write := (write bounding_box SHAPE_TYPES).
Local Abbreviation locked_by := (locked_by bounding_box SHAPE_TYPES).
Local Abbreviation decode_from := (decode_from is_clockwise).

(** ** One step of the reader *)

Lemma get_shape_raises : forall (d : shp_file coord) i e,
  get_shape d i = Raise e -> e = IndexError.
Proof.
  intros d i e. unfold get_shape.
  destruct ((0 <=? i) && (i <? len (shapes d))).
  - destruct (nth_error (shapes d) (Z.to_nat i)); congruence.
  - congruence.
Qed.

Lemma get_shape_nth : forall (d : shp_file coord) i rec,
  get_shape d i = Ok rec <->
  0 <= i /\ nth_error (shapes d) (Z.to_nat i) = Some rec.
Proof.
  intros d i rec. unfold get_shape, len. split.
  - destruct ((0 <=? i) && (i <? Z.of_nat (List.length (shapes d)))) eqn:E.
    + apply andb_prop in E. destruct E as [E1 _].
      destruct (nth_error (shapes d) (Z.to_nat i)) eqn:N; [|congruence].
      intros H. inversion H. subst. split; [lia | reflexivity].
    + congruence.
  - intros [Hi N].
    assert (Z.to_nat i < List.length (shapes d))%nat as L
      by (apply nth_error_Some; congruence).
    replace ((0 <=? i) && (i <? Z.of_nat (List.length (shapes d)))) with true.
    + rewrite N. reflexivity.
    + symmetry. apply andb_true_intro. split; lia.
Qed.

Lemma get_shape_end : forall (d : shp_file coord) i,
  len (shapes d) <= i -> get_shape d i = Raise IndexError.
Proof.
  intros d i H. unfold get_shape.
  replace (i <? len (shapes d)) with false by (symmetry; lia).
  rewrite andb_false_r. reflexivity.
Qed.

Lemma _read_record : forall d self rec,
  dataObj self = Some d ->
  get_shape d (pos self) = Ok rec ->
  _read self =
    (shp <- fst (decode (file_type d) (type self) (pos self + 1) rec) ;; Ok (Some shp),
     set_pos self (pos self + 1),
     snd (decode (file_type d) (type self) (pos self + 1) rec)).
Proof.
  intros d self rec Hd Hg. unfold _read. rewrite Hd, Hg. simpl.
  destruct (decode (file_type d) (type self) (pos self + 1) rec).
  reflexivity.
Qed.

Lemma _read_end_of_data : forall d self,
  dataObj self = Some d ->
  len (shapes d) <= pos self ->
  _read self = (Ok None, self, []).
Proof.
  intros d self Hd Hp. unfold _read.
  rewrite Hd, (get_shape_end d Hp). reflexivity.
Qed.

Lemma opened_init : forall (disk : shp_file coord) m self,
  m = "r" \/ m = "rb" ->
  __init__ disk m = (Ok tt, self) ->
  opened disk self /\ pos self = 0.
Proof.
  intros disk m self Hm. unfold __init__, __open, opened.
  destruct Hm; subst m; simpl;
    destruct (dict_get STRING_TO_TYPE (file_type disk)) as [c|] eqn:E;
    intros H; inversion H; subst; simpl; eauto.
Qed.

(** ** Decoding, case by case *)

Ltac string_cases H :=
  repeat match type of H with
         | _ \/ _ => destruct H as [H | H]
         end; rewrite H; simpl.

(** A record without parts, read from a polyline or polygon file. *)
Lemma decode_zero_parts : forall ftype c p (rec : RawRecord coord),
  ftype = "ARC" \/ ftype = "POLYGON" \/ ftype = "POLYGONZ" ->
  dict_get STRING_TO_TYPE ftype = Some c ->
  NumParts rec = Some 0 ->
  decode ftype (type_class c) p rec =
    (Ok match c with
        | cg_Chain => Chain [[]]
        | _ => Polygon [[]] []
        end, [Warn (zero_parts p)])
  /\ c <> cg_Point.
Proof.
  intros ftype c p rec Hf Hc Hn. unfold decode, decode_in.
  string_cases Hf; rewrite Hn; simpl; rewrite Hf in Hc; vm_compute in Hc;
    inversion Hc; subst c; simpl; split; (reflexivity || discriminate).
Qed.

(** A single-ring polygon record. *)
Lemma decode_single_ring : forall p (rec : RawRecord coord) vs,
  NumParts rec = Some 1 ->
  Vertices rec = Some vs ->
  decode "POLYGON" (type_class cg_Polygon) p rec =
    (Ok (Polygon [vs] []),
     if is_clockwise vs then []
     else [Warn (topology_fixed p); Print (topology_fixed p)]).
Proof.
  intros p rec vs Hn Hv. unfold decode, decode_in. simpl.
  rewrite Hn, Hv. simpl. destruct (is_clockwise vs); reflexivity.
Qed.

(** A multi-part polygon record, in an arbitrary namespace: the name
    [pysal] is looked up once the parts have been cut out. *)
Lemma decode_in_multipart : forall globals p (rec : RawRecord coord) n parts,
  NumParts rec = Some n ->
  1 < n ->
  split_parts rec n = Ok parts ->
  decode_in globals "POLYGON" (type_class cg_Polygon) p rec =
    (_ <- load_global globals "pysal" ;;
     Ok (Polygon (shells_of is_clockwise parts)
                 (holes_of is_clockwise parts)), []).
Proof.
  intros globals p rec n parts Hn H1 Hs. unfold decode_in. simpl.
  rewrite Hn. simpl. replace (n >? 1) with true by (symmetry; lia).
  rewrite Hs. simpl.
  destruct (load_global globals "pysal"); simpl; [|reflexivity].
  destruct (holes_of is_clockwise parts); reflexivity.
Qed.

Lemma pysal_unbound : load_global module_globals "pysal" = Raise (NameError "pysal").
Proof. reflexivity. Qed.

Lemma decode_multipart : forall p (rec : RawRecord coord) n parts,
  NumParts rec = Some n ->
  1 < n ->
  split_parts rec n = Ok parts ->
  decode "POLYGON" (type_class cg_Polygon) p rec = (Raise (NameError "pysal"), []).
Proof.
  intros p rec n parts Hn H1 Hs. unfold decode.
  rewrite (decode_in_multipart module_globals p rec Hn H1 Hs).
  rewrite pysal_unbound. reflexivity.
Qed.

Lemma shells_of_filter : forall parts : list (list (vertex coord)),
  shells_of is_clockwise parts = filter is_clockwise parts.
Proof.
  unfold shells_of. induction parts as [|a l IH]; simpl; [reflexivity|].
  destruct (is_clockwise a); simpl; rewrite IH; reflexivity.
Qed.

Lemma holes_of_filter : forall parts : list (list (vertex coord)),
  holes_of is_clockwise parts = filter (fun part => negb (is_clockwise part)) parts.
Proof.
  unfold holes_of. induction parts as [|a l IH]; simpl; [reflexivity|].
  destruct (is_clockwise a); simpl; rewrite IH; reflexivity.
Qed.

(** In a namespace that binds [pysal] the parts are sorted by
    orientation alone, each group keeping the file order. *)
Lemma decode_multipart_where_bound : forall globals p (rec : RawRecord coord) n parts,
  In "pysal" globals ->
  NumParts rec = Some n ->
  1 < n ->
  split_parts rec n = Ok parts ->
  decode_in globals "POLYGON" (type_class cg_Polygon) p rec =
    (Ok (Polygon (filter is_clockwise parts)
                 (filter (fun part => negb (is_clockwise part)) parts)), []).
Proof.
  intros globals p rec n parts Hin Hn H1 Hs.
  rewrite (decode_in_multipart globals p rec Hn H1 Hs).
  unfold load_global.
  replace (existsb (String.eqb "pysal") globals) with true.
  - simpl. rewrite shells_of_filter, holes_of_filter. reflexivity.
  - symmetry. apply existsb_exists. exists "pysal". split; [assumption|].
    apply String.eqb_refl.
Qed.

Lemma opened_polygon : forall (d : shp_file coord) self,
  opened d self -> file_type d = "POLYGON" -> type self = type_class cg_Polygon.
Proof.
  intros d self [_ [c [Hc Ht]]] Hf. rewrite Hf in Hc. vm_compute in Hc.
  inversion Hc. subst c. assumption.
Qed.

Lemma opened_type : forall (d : shp_file coord) self c,
  opened d self -> dict_get STRING_TO_TYPE (file_type d) = Some c ->
  type self = type_class c.
Proof.
  intros d self c [_ [c' [Hc Ht]]] H. congruence.
Qed.

(** ** Records without parts *)

(** C9 (amended): a record whose part count is 0, read from a polyline
    or polygon file, advances the cursor and raises exactly one warning
    that the record has zero parts, which names the record by the value
    of the cursor after it: 1 for the first record of the stream.  Read
    from a polyline file, the record is decoded without failure as the
    polyline built from a single empty part.  What the polygon built
    from a single empty part is, is left open. *)
Theorem zero_part_record_read : forall d self rec,
  opened d self ->
  file_type d = "ARC" \/ file_type d = "POLYGON" \/ file_type d = "POLYGONZ" ->
  get_shape d (pos self) = Ok rec ->
  NumParts rec = Some 0 ->
  exists r ev,
    _read self = (r, set_pos self (pos self + 1), ev)
    /\ ev = [Warn (zero_parts (pos self + 1))]
    /\ warnings_of ev = [zero_parts (pos self + 1)]
    /\ (pos self = 0 -> warnings_of ev = [zero_parts 1])
    /\ (file_type d = "ARC" ->
        type self = type_class cg_Chain
        /\ r = Ok (Some (Chain [[]]))).
Proof.
  intros d self rec Ho Hf Hg Hn.
  destruct Ho as [Hd [c [Hc Ht]]].
  destruct (decode_zero_parts (pos self + 1) rec Hf Hc Hn) as [Hdec Hcp].
  exists (Ok (Some (match c with cg_Chain => Chain [[]] | _ => Polygon [[]] [] end))),
         [Warn (zero_parts (pos self + 1))].
  rewrite (_read_record self Hd Hg), Ht, Hdec. simpl.
  split; [reflexivity|]. split; [reflexivity|]. split; [reflexivity|]. split.
  - intros H0. rewrite H0. reflexivity.
  - intros Ha. rewrite Ha in Hc. vm_compute in Hc. inversion Hc. subst c.
    repeat split.
Qed.

(** ** Single-ring polygons *)

(** C6 (amended): a POLYGON record with part count 1 whose ring is
    not clockwise is decoded without failure: the read yields the
    polygon with that ring as its only shell and no hole, and emits
    exactly one topology warning, which names the record by the value
    of the cursor after it: 1 for the first record of the stream. *)
Theorem ccw_single_ring_read : forall d self rec vs,
  opened d self ->
  file_type d = "POLYGON" ->
  get_shape d (pos self) = Ok rec ->
  NumParts rec = Some 1 ->
  Vertices rec = Some vs ->
  is_clockwise vs = false ->
  exists ev,
    _read self = (Ok (Some (Polygon [vs] [])), set_pos self (pos self + 1), ev)
    /\ warnings_of ev = [topology_fixed (pos self + 1)]
    /\ (pos self = 0 -> warnings_of ev = [topology_fixed 1]).
Proof.
  intros d self rec vs Ho Hf Hg Hn Hv Hcw.
  pose proof (opened_polygon Ho Hf) as Ht. destruct Ho as [Hd _].
  exists [Warn (topology_fixed (pos self + 1)); Print (topology_fixed (pos self + 1))].
  rewrite (_read_record self Hd Hg), Ht, Hf, (decode_single_ring _ rec Hn Hv), Hcw.
  simpl. repeat split. intros H0. rewrite H0. reflexivity.
Qed.

(** A clockwise single ring is read silently. *)
Lemma cw_single_ring_read : forall d self rec vs,
  opened d self ->
  file_type d = "POLYGON" ->
  get_shape d (pos self) = Ok rec ->
  NumParts rec = Some 1 ->
  Vertices rec = Some vs ->
  is_clockwise vs = true ->
  _read self = (Ok (Some (Polygon [vs] [])), set_pos self (pos self + 1), []).
Proof.
  intros d self rec vs Ho Hf Hg Hn Hv Hcw.
  pose proof (opened_polygon Ho Hf) as Ht. destruct Ho as [Hd _].
  rewrite (_read_record self Hd Hg), Ht, Hf, (decode_single_ring _ rec Hn Hv), Hcw.
  reflexivity.
Qed.

(** ** Point records *)

Lemma point_record_read : forall d self rec x y,
  opened d self ->
  file_type d = "POINT" ->
  get_shape d (pos self) = Ok rec ->
  X rec = Some x -> Y rec = Some y ->
  _read self = (Ok (Some (Point x y [] None None)), set_pos self (pos self + 1), []).
Proof.
  intros d self rec x y Ho Hf Hg Hx Hy.
  assert (type self = type_class cg_Point) as Ht
    by (apply (opened_type Ho); rewrite Hf; reflexivity).
  destruct Ho as [Hd _].
  rewrite (_read_record self Hd Hg), Ht, Hf. unfold decode, decode_in. simpl.
  rewrite Hx, Hy. reflexivity.
Qed.

Lemma pointz_record_read : forall d self rec x y z m,
  opened d self ->
  file_type d = "POINTZ" ->
  get_shape d (pos self) = Ok rec ->
  X rec = Some x -> Y rec = Some y -> Z_ rec = Some z -> M rec = Some m ->
  _read self = (Ok (Some (Point x y [] (Some z) (Some m))),
                set_pos self (pos self + 1), []).
Proof.
  intros d self rec x y z m Ho Hf Hg Hx Hy Hz Hm.
  assert (type self = type_class cg_Point) as Ht
    by (apply (opened_type Ho); rewrite Hf; reflexivity).
  destruct Ho as [Hd _].
  rewrite (_read_record self Hd Hg), Ht, Hf. unfold decode, decode_in. simpl.
  rewrite Hx, Hy, Hz, Hm. reflexivity.
Qed.

(** C5: a POINTM file is accepted on opening, but its records are
    not decoded as points: [_read] has no case for the type, takes the
    polyline and polygon path, and raises [KeyError] on the part count
    that a point record does not have. *)
Theorem pointm_record_read_raises : forall d self rec,
  opened d self ->
  file_type d = "POINTM" ->
  get_shape d (pos self) = Ok rec ->
  NumParts rec = None ->
  type self = type_class cg_Point
  /\ _read self = (Raise (KeyError "NumParts"), set_pos self (pos self + 1), []).
Proof.
  intros d self rec Ho Hf Hg Hn.
  assert (type self = type_class cg_Point) as Ht
    by (apply (opened_type Ho); rewrite Hf; reflexivity).
  split; [assumption|]. destruct Ho as [Hd _].
  rewrite (_read_record self Hd Hg), Ht, Hf. unfold decode, decode_in. simpl.
  rewrite Hn. reflexivity.
Qed.

(** ** Multi-part polygons *)

(** C2: reading a POLYGON record with more than one part raises
    [NameError]: once the parts are cut out, line 172 looks up the
    name [pysal], which the module does not bind, so no part is ever
    classified by orientation.  In a namespace that binds the name the
    same body sorts the parts by orientation alone: the clockwise ones
    are the shells and the others the holes, whatever their order. *)
Theorem multipart_polygon_read_raises : forall d self rec n parts,
  opened d self ->
  file_type d = "POLYGON" ->
  get_shape d (pos self) = Ok rec ->
  NumParts rec = Some n ->
  1 < n ->
  split_parts rec n = Ok parts ->
  _read self = (Raise (NameError "pysal"), set_pos self (pos self + 1), [])
  /\ forall globals, In "pysal" globals ->
       decode_in globals (file_type d) (type self) (pos self + 1) rec =
         (Ok (Polygon (filter is_clockwise parts)
                      (filter (fun part => negb (is_clockwise part)) parts)), []).
Proof.
  intros d self rec n parts Ho Hf Hg Hn H1 Hs.
  pose proof (opened_polygon Ho Hf) as Ht. destruct Ho as [Hd _]. split.
  - rewrite (_read_record self Hd Hg), Ht, Hf, (decode_multipart _ rec Hn H1 Hs).
    reflexivity.
  - intros globals Hin. rewrite Ht, Hf.
    apply (decode_multipart_where_bound _ _ rec Hin Hn H1 Hs).
Qed.

(** C10: reading a POLYGON record with more than one part, all of
    them counter-clockwise, yields no polygon: the read raises
    [NameError] on the name [pysal] before any ring is classified.
    Only in a namespace that binds the name does the body build the
    polygon without shells whose holes are all the parts. *)
Theorem all_ccw_polygon_read_raises : forall d self rec n parts,
  opened d self ->
  file_type d = "POLYGON" ->
  get_shape d (pos self) = Ok rec ->
  NumParts rec = Some n ->
  1 < n ->
  split_parts rec n = Ok parts ->
  Forall (fun part => is_clockwise part = false) parts ->
  (forall shp self' ev, _read self <> (Ok (Some shp), self', ev))
  /\ fst (fst (_read self)) = Raise (NameError "pysal")
  /\ forall globals, In "pysal" globals ->
       decode_in globals (file_type d) (type self) (pos self + 1) rec =
         (Ok (Polygon [] parts), []).
Proof.
  intros d self rec n parts Ho Hf Hg Hn H1 Hs Hccw.
  pose proof (opened_polygon Ho Hf) as Ht. destruct Ho as [Hd _].
  rewrite (_read_record self Hd Hg), Ht, Hf, (decode_multipart _ rec Hn H1 Hs).
  simpl. repeat split; try congruence.
  intros globals Hin.
  rewrite (decode_multipart_where_bound _ _ rec Hin Hn H1 Hs).
  replace (filter is_clockwise parts) with (@nil (list (vertex coord))).
  - replace (filter (fun part => negb (is_clockwise part)) parts) with parts;
      [reflexivity|].
    clear Hs. induction Hccw as [|a l Ha Hl IH]; simpl; [reflexivity|].
    rewrite Ha. simpl. f_equal. assumption.
  - clear Hs. induction Hccw as [|a l Ha Hl IH]; simpl; [reflexivity|].
    rewrite Ha. assumption.
Qed.

(** ** The type lock *)

Lemma TYPE_TO_STRING_inj : forall a b,
  TYPE_TO_STRING a = TYPE_TO_STRING b -> a = b.
Proof.
  intros [] []; simpl; intros H; try reflexivity; discriminate.
Qed.

Lemma encode_needs_shape_type : forall t shape rec,
  encode t shape = Ok rec -> exists st, dict_get SHAPE_TYPES t = Some st.
Proof.
  intros t shape rec. unfold encode.
  destruct (dict_get SHAPE_TYPES t) as [st|]; simpl; [eauto | discriminate].
Qed.

(** Encoding a shape under the type string of its own class succeeds
    as soon as the shape type table knows the string. *)
Lemma encode_total : forall shape st,
  dict_get SHAPE_TYPES (TYPE_TO_STRING (type_of shape)) = Some st ->
  exists rec, encode (TYPE_TO_STRING (type_of shape)) shape = Ok rec.
Proof.
  intros shape st H. unfold encode. rewrite H.
  destruct shape as [x y more az am | parts | parts holes]; simpl.
  - eexists. reflexivity.
  - destruct (bounding_box (Chain parts)) as [[[? ?] ?] ?]. eexists. reflexivity.
  - destruct (bounding_box (Polygon parts holes)) as [[[? ?] ?] ?].
    eexists. reflexivity.
Qed.

Lemma __writer_mismatch : forall shape self t,
  type self = type_string t ->
  TYPE_TO_STRING (type_of shape) <> t ->
  __writer shape self = (Raise TypeError, self, []).
Proof.
  intros shape self t Ht Hne. unfold __writer. rewrite Ht.
  destruct (String.eqb_spec (TYPE_TO_STRING (type_of shape)) t); [contradiction|].
  reflexivity.
Qed.

Lemma __writer_match : forall shape self d rec,
  type self = type_string (TYPE_TO_STRING (type_of shape)) ->
  dataObj self = Some d ->
  encode (TYPE_TO_STRING (type_of shape)) shape = Ok rec ->
  __writer shape self =
    (Ok tt, set_pos (set_dataObj self (add_shape d rec)) (pos self + 1), []).
Proof.
  intros shape self d rec Ht Hd He. unfold __writer.
  rewrite Ht, String.eqb_refl, He, Hd. reflexivity.
Qed.

(** What a successful [__writer] call tells about the session. *)
Lemma __writer_ok : forall shape self self1 ev,
  __writer shape self = (Ok tt, self1, ev) ->
  type self1 = type_string (TYPE_TO_STRING (type_of shape))
  /\ write_attr self1 = write_attr self
  /\ (exists d, dataObj self1 = Some d)
  /\ exists st, dict_get SHAPE_TYPES (TYPE_TO_STRING (type_of shape)) = Some st.
Proof.
  intros shape self self1 ev. unfold __writer.
  destruct (type self) as [|c|t] eqn:Ht; try discriminate.
  destruct (String.eqb_spec (TYPE_TO_STRING (type_of shape)) t) as [E|E];
    simpl; [|discriminate].
  destruct (encode t shape) as [rec|e] eqn:He;
    [|discriminate].
  destruct (dataObj self) as [d|] eqn:Hd; [|discriminate].
  intros H. inversion H. subst self1 ev. simpl.
  rewrite Ht, E. repeat split; eauto using encode_needs_shape_type.
Qed.

Lemma write_ok_locks : forall shape self self1 ev,
  write shape self = (Ok tt, self1, ev) ->
  type_locked SHAPE_TYPES (type_of shape) self1.
Proof.
  intros shape self self1 ev. unfold write, type_locked.
  destruct (write_attr self) eqn:Hw; [discriminate| |].
  - unfold __firstWrite. intros H. apply __writer_ok in H.
    simpl in H. destruct H as [H1 [H2 [H3 H4]]]. auto.
  - intros H. apply __writer_ok in H. rewrite Hw in H.
    destruct H as [H1 [H2 [H3 H4]]]. auto.
Qed.

Lemma write_keeps_lock : forall c shape self r self' ev,
  type_locked SHAPE_TYPES c self ->
  write shape self = (r, self', ev) ->
  type_locked SHAPE_TYPES c self'.
Proof.
  intros c shape self r self' ev [Ht [Hw [[d Hd] Hst]]]. unfold write.
  rewrite Hw. unfold __writer. rewrite Ht, Hd.
  destruct (negb (TYPE_TO_STRING (type_of shape) =? TYPE_TO_STRING c)%string).
  - intros H. inversion H. subst. unfold type_locked. eauto.
  - destruct (encode (TYPE_TO_STRING c) shape);
      intros H; inversion H; subst; unfold type_locked; simpl; eauto.
Qed.

Lemma locked_by_type_locked : forall c self,
  locked_by c self -> type_locked SHAPE_TYPES c self.
Proof.
  intros c self H. induction H as [self shape self1 ev Hw Hc | self shape r self' ev _ IH Hw].
  - subst c. eapply write_ok_locks; eassumption.
  - eapply write_keeps_lock; eassumption.
Qed.

(** C3: on a session whose type a successful write has locked to
    the class [c], every later write of a geometry of another class
    raises [TypeError] and leaves the session, and so its cursor,
    as it was; every later write of a geometry of class [c] succeeds:
    the shape is encoded, the record is appended to the file, and the
    cursor advances by 1. *)
Theorem write_on_locked_session : forall c self shape,
  locked_by c self ->
  (type_of shape <> c ->
     write shape self = (Raise TypeError, self, []))
  /\ (type_of shape = c ->
      exists d rec self',
        dataObj self = Some d
        /\ encode (TYPE_TO_STRING c) shape = Ok rec
        /\ write shape self = (Ok tt, self', [])
        /\ dataObj self' = Some (add_shape d rec)
        /\ shapes (add_shape d rec) = shapes d ++ [rec]
        /\ pos self' = pos self + 1).
Proof.
  intros c self shape Hl.
  destruct (locked_by_type_locked Hl) as [Ht [Hw [[d Hd] [st Hst]]]].
  unfold write. rewrite Hw. split.
  - intros Hne. apply (__writer_mismatch shape self Ht).
    intros E. apply Hne. apply TYPE_TO_STRING_inj. assumption.
  - intros E. subst c. destruct (encode_total shape Hst) as [rec He].
    exists d, rec. eexists. split; [assumption|]. split; [assumption|].
    split; [apply (__writer_match shape self Ht Hd He)|].
    simpl. repeat split.
Qed.

(** ** The part index *)

Lemma fold_step_offsets : forall lengths acc x,
  acc <> [] ->
  fold_left index_step lengths acc =
    removelast acc ++ part_offsets (last acc 0) (lengths ++ [x]).
Proof.
  induction lengths as [|l ls IH]; intros acc x Hacc; simpl.
  - apply app_removelast_last. assumption.
  - rewrite (IH (index_step acc l) x).
    + unfold index_step. rewrite removelast_last, last_last.
      rewrite (app_removelast_last 0 Hacc) at 1.
      rewrite <- app_assoc. reflexivity.
    + unfold index_step. intros E. apply app_eq_nil in E. destruct E. discriminate.
Qed.

Lemma parts_index_offsets : forall all_parts : list (list (vertex coord)),
  all_parts <> [] ->
  parts_index all_parts = part_offsets 0 (map (@len (vertex coord)) all_parts).
Proof.
  intros all_parts Hne. unfold parts_index.
  assert (map (@len (vertex coord)) all_parts <> []) as Hm
    by (destruct all_parts; [contradiction | discriminate]).
  rewrite (app_removelast_last 0 Hm) at 2.
  apply (fold_step_offsets (removelast (map (@len (vertex coord)) all_parts))
           (acc := [0])).
  discriminate.
Qed.





Lemma len_app : forall (A : Type) (l m : list A), len (l ++ m) = len l + len m.
Proof.
  intros A l m. unfold len. rewrite length_app. lia.
Qed.

Lemma len_concat : forall parts : list (list (vertex coord)),
  len (List.concat parts) = fold_right Z.add 0 (map (@len (vertex coord)) parts).
Proof.
  unfold len. induction parts as [|p ps IH]; simpl; [reflexivity|].
  rewrite length_app, Nat2Z.inj_add, IH. reflexivity.
Qed.



Lemma encode_polygon : forall shells holes st,
  dict_get SHAPE_TYPES "POLYGON" = Some st ->
  exists bb,
    encode "POLYGON" (Polygon shells holes) =
      Ok (mkRawRecord (Some st) None None None None
            (Some (fst (fst (fst bb)))) (Some (snd (fst (fst bb))))
            (Some (snd (fst bb))) (Some (snd bb))
            (Some (len shells + len (reversed_holes holes)))
            (Some (parts_index (polygon_parts shells holes)))
            (Some (len (List.concat (polygon_parts shells holes))))
            (Some (List.concat (polygon_parts shells holes)))).
Proof.
  intros shells holes st H. unfold encode. rewrite H. simpl.
  exists (bounding_box (Polygon shells holes)).
  destruct (bounding_box (Polygon shells holes)) as [[[? ?] ?] ?]. reflexivity.
Qed.

Lemma encode_chain : forall parts st,
  dict_get SHAPE_TYPES "ARC" = Some st ->
  exists bb,
    encode "ARC" (Chain parts) =
      Ok (mkRawRecord (Some st) None None None None
            (Some (fst (fst (fst bb)))) (Some (snd (fst (fst bb))))
            (Some (snd (fst bb))) (Some (snd bb))
            (Some (len parts))
            (Some (parts_index parts))
            (Some (len (List.concat parts)))
            (Some (List.concat parts))).
Proof.
  intros parts st H. unfold encode. rewrite H. simpl.
  exists (bounding_box (Chain parts)).
  destruct (bounding_box (Chain parts)) as [[[? ?] ?] ?]. reflexivity.
Qed.

Lemma len_reversed_holes : forall holes : list (list (vertex coord)),
  len (reversed_holes holes) = len (filter (@list_truth (vertex coord)) holes).
Proof.
  intros holes. unfold reversed_holes, len. rewrite length_map. reflexivity.
Qed.




(** ** Reading several records *)

Lemma set_pos_same : forall (self : Session coord) p,
  p = pos self -> set_pos self p = self.
Proof.
  intros [m p0 d t w] p H. simpl in H. subst. reflexivity.
Qed.

Lemma set_pos_twice : forall (self : Session coord) p q,
  set_pos (set_pos self p) q = set_pos self q.
Proof. reflexivity. Qed.

Lemma remaining_cons : forall (d : shp_file coord) p rec l,
  0 <= p ->
  remaining d p = rec :: l ->
  get_shape d p = Ok rec /\ remaining d (p + 1) = l.
Proof.
  intros d p rec l Hp. unfold remaining. intros H. split.
  - apply get_shape_nth. split; [assumption|].
    rewrite <- (firstn_skipn (Z.to_nat p) (shapes d)), H.
    assert (Z.to_nat p <= List.length (shapes d))%nat as L.
    { destruct (Nat.le_gt_cases (Z.to_nat p) (List.length (shapes d))) as [L|L];
        [assumption|].
      rewrite skipn_all2 in H by lia. discriminate. }
    rewrite nth_error_app2; rewrite length_firstn, Nat.min_l by assumption;
      [|lia].
    rewrite Nat.sub_diag. reflexivity.
  - replace (Z.to_nat (p + 1)) with (1 + Z.to_nat p)%nat by lia.
    rewrite <- skipn_skipn, H. reflexivity.
Qed.

Lemma remaining_nil : forall (d : shp_file coord) p,
  0 <= p -> remaining d p = [] -> len (shapes d) <= p.
Proof.
  intros d p Hp. unfold remaining, len. intros H.
  assert (List.length (skipn (Z.to_nat p) (shapes d)) = 0%nat) as L
    by (rewrite H; reflexivity).
  rewrite length_skipn in L. lia.
Qed.

(** The diagnostics of reading [recs] in order. *)
Local Abbreviation events_from ftype ty p recs :=
  (List.concat (map snd (decode_from ftype ty p recs))).

Lemma _read_decoded : forall d self rec l g,
  dataObj self = Some d ->
  0 <= pos self ->
  remaining d (pos self) = rec :: l ->
  fst (decode (file_type d) (type self) (pos self + 1) rec) = Ok g ->
  _read self = (Ok (Some g), set_pos self (pos self + 1),
                snd (decode (file_type d) (type self) (pos self + 1) rec))
  /\ remaining d (pos self + 1) = l.
Proof.
  intros d self rec l g Hd Hp Hr Hdec.
  destruct (remaining_cons d Hp Hr) as [Hg Hl].
  rewrite (_read_record self Hd Hg), Hdec. simpl. auto.
Qed.

Lemma read_for_end : forall k d self acc,
  dataObj self = Some d ->
  len (shapes d) <= pos self ->
  read_for is_clockwise k self acc = (Ok (acc ++ repeat None k), self, []).
Proof.
  induction k as [|k IH]; intros d self acc Hd Hp; simpl.
  - rewrite app_nil_r. reflexivity.
  - rewrite (_read_end_of_data self Hd Hp).
    rewrite (IH d self (acc ++ [None]) Hd Hp), <- app_assoc. reflexivity.
Qed.

(** The [for] loop over records that all decode: it reads [recs],
    and past the end of the data it appends [None] at each turn. *)
Lemma read_for_records : forall recs rest k d self acc gs,
  dataObj self = Some d ->
  0 <= pos self ->
  remaining d (pos self) = recs ++ rest ->
  k = 0%nat \/ rest = [] ->
  map fst (decode_from (file_type d) (type self) (pos self) recs) = map (@Ok _) gs ->
  read_for is_clockwise (List.length recs + k) self acc =
    (Ok (acc ++ map (@Some _) gs ++ repeat None k),
     set_pos self (pos self + len recs),
     events_from (file_type d) (type self) (pos self) recs).
Proof.
  induction recs as [|rec recs IH]; intros rest k d self acc gs Hd Hp Hr Hk Hdec.
  - destruct gs; [|discriminate]. simpl.
    rewrite set_pos_same by (unfold len; simpl; lia).
    destruct Hk as [Hk|Hk]; subst.
    + rewrite app_nil_r. reflexivity.
    + simpl. apply read_for_end with (d := d); [assumption|].
      apply remaining_nil; assumption.
  - destruct gs as [|g gs]; [discriminate|].
    simpl in Hdec. inversion Hdec as [[Hg1 Hgs]].
    edestruct _read_decoded as [Hread Hl];
      [exact Hd | exact Hp | exact Hr | exact Hg1 |].
    change (List.length (rec :: recs) + k)%nat with (S (List.length recs + k)).
    cbn [read_for]. rewrite Hread.
    rewrite (IH rest k d (set_pos self (pos self + 1)) (acc ++ [Some g]) gs);
      try assumption; simpl; try lia.
    rewrite <- app_assoc, set_pos_twice. simpl.
    replace (pos self + 1 + len recs) with (pos self + len (rec :: recs))
      by (unfold len; cbn [List.length]; lia).
    reflexivity.
Qed.

Lemma geo_interfaces_ok : forall gs : list (Geometry coord),
  comprehension (geo_interface_of geo_interface) (map (@Some _) gs)
    = Ok (map geo_interface gs).
Proof.
  induction gs as [|g gs IH]; simpl; [reflexivity|]. rewrite IH. reflexivity.
Qed.

Lemma geo_interfaces_raise : forall (gs : list (Geometry coord)) k,
  (0 < k)%nat ->
  comprehension (geo_interface_of geo_interface)
                (map (@Some _) gs ++ repeat None k)
    = Raise (AttributeError "__geo_interface__").
Proof.
  intros gs k Hk. induction gs as [|g gs IH]; simpl.
  - destruct k; [lia | reflexivity].
  - rewrite IH. reflexivity.
Qed.

(** The [while] loop over records that all decode to true objects. *)
Lemma read_while_records : forall recs fuel d self acc gs,
  dataObj self = Some d ->
  0 <= pos self ->
  remaining d (pos self) = recs ->
  map fst (decode_from (file_type d) (type self) (pos self) recs) = map (@Ok _) gs ->
  forallb truth gs = true ->
  (List.length recs < fuel)%nat ->
  read_while is_clockwise truth fuel self acc =
    Some (Ok (acc ++ gs),
          set_pos self (pos self + len recs),
          events_from (file_type d) (type self) (pos self) recs).
Proof.
  induction recs as [|rec recs IH]; intros fuel d self acc gs Hd Hp Hr Hdec Ht Hf;
    (destruct fuel as [|fuel]; [simpl in Hf; lia|]).
  - destruct gs; [|discriminate]. simpl.
    rewrite (_read_end_of_data self Hd (remaining_nil d Hp Hr)).
    rewrite set_pos_same by (unfold len; simpl; lia).
    rewrite app_nil_r. reflexivity.
  - destruct gs as [|g gs]; [discriminate|].
    simpl in Hdec. inversion Hdec as [[Hg1 Hgs]].
    edestruct _read_decoded as [Hread Hl];
      [exact Hd | exact Hp | exact Hr | exact Hg1 |].
    simpl in Ht. apply andb_prop in Ht. destruct Ht as [Htg Htgs].
    cbn [read_while]. rewrite Hread, Htg.
    rewrite (IH fuel d (set_pos self (pos self + 1)) (acc ++ [g]) gs);
      try assumption; simpl; try (simpl in Hf; lia).
    rewrite <- app_assoc, set_pos_twice. simpl.
    replace (pos self + 1 + len recs) with (pos self + len (rec :: recs))
      by (unfold len; cbn [List.length]; lia).
    reflexivity.
Qed.

(** The [while] loop leaves through [break] or an exception before
    the fuel runs out, whatever the records hold. *)
Lemma read_while_terminates : forall fuel self acc,
  (match dataObj self with
   | Some d => Z.max 0 (len (shapes d) - pos self)
   | None => 0
   end < Z.of_nat fuel) ->
  exists r, read_while is_clockwise truth fuel self acc = Some r.
Proof.
  induction fuel as [|fuel IH]; intros self acc Hf.
  - destruct (dataObj self); unfold len in Hf; lia.
  - cbn [read_while]. unfold _read.
    destruct (dataObj self) as [d|] eqn:Hd; [|eauto].
    destruct (get_shape d (pos self)) as [rec|e] eqn:Hg.
    + destruct (decode (file_type d)
                  (type (set_pos self (pos self + 1)))
                  (pos (set_pos self (pos self + 1))) rec) as [[g|e] ev];
        simpl; [|eauto].
      destruct (truth g); [|eauto].
      destruct (IH (set_pos self (pos self + 1)) (acc ++ [g])) as [[[r s'] ev'] Hr].
      * simpl. rewrite Hd.
        assert (pos self < len (shapes d)).
        { apply get_shape_nth in Hg. destruct Hg as [H0 Hn].
          assert (Z.to_nat (pos self) < List.length (shapes d))%nat
            by (apply nth_error_Some; congruence).
          unfold len. lia. }
        lia.
      * rewrite Hr. eauto.
    + rewrite (get_shape_raises _ _ Hg). eauto.
Qed.

(** The [while] loop stops at the first geometry that is not a true
    object, keeping what it collected before. *)
Lemma read_while_false_object : forall fuel d self acc rec l g,
  dataObj self = Some d ->
  0 <= pos self ->
  remaining d (pos self) = rec :: l ->
  fst (decode (file_type d) (type self) (pos self + 1) rec) = Ok g ->
  truth g = false ->
  read_while is_clockwise truth (S fuel) self acc =
    Some (Ok acc, set_pos self (pos self + 1),
          snd (decode (file_type d) (type self) (pos self + 1) rec)).
Proof.
  intros fuel d self acc rec l g Hd Hp Hr Hg Ht.
  edestruct _read_decoded as [Hread Hl];
    [exact Hd | exact Hp | exact Hr | exact Hg |].
  cbn [read_while]. rewrite Hread, Ht. reflexivity.
Qed.

(** X24: [read] returns or raises for every [n]: the loop of a read
    of everything leaves through [break] or an exception within as
    many turns as the file has records, plus one. *)
Lemma read_terminates : forall fuel n self,
  0 <= pos self ->
  (Z.to_nat (__len__ self) < fuel)%nat ->
  exists r, read fuel n self = Some r.
Proof.
  intros fuel n self Hp Hf. unfold read.
  destruct (n <? 0).
  - destruct (read_while_terminates fuel self []) as [[[r s'] ev] Hr].
    + unfold __len__ in Hf. destruct (dataObj self); unfold len in *; lia.
    + rewrite Hr. destruct r; eauto.
  - destruct (n =? 0); [eauto|].
    destruct (read_for is_clockwise (Z.to_nat n) self []) as [[[res|e] s'] ev]; eauto.
Qed.

Lemma read_zero : forall fuel self, read fuel 0 self = Some (Ok (PyNone _), self, []).
Proof. reflexivity. Qed.

Lemma length_remaining : forall (d : shp_file coord) p,
  (List.length (remaining d p) <= List.length (shapes d))%nat.
Proof.
  intros d p. unfold remaining. rewrite length_skipn. lia.
Qed.

(** C8: a read of everything ([n < 0]) over records that decode to
    true objects collects the geometries of all the records from the
    cursor on, in order, and leaves the cursor at 0; a read of [n > 0]
    records started at position 0 over a stream of at least [n] records
    returns the first [n] geometries and leaves the cursor at [n]. *)
Theorem full_read_resets_partial_read_advances : forall d self,
  dataObj self = Some d ->
  (forall gs fuel n,
     0 <= pos self ->
     n < 0 ->
     map fst (decode_from (file_type d) (type self) (pos self)
                (remaining d (pos self))) = map (@Ok _) gs ->
     forallb truth gs = true ->
     (List.length (shapes d) < fuel)%nat ->
     read fuel n self =
       Some (Ok (GeoSeries (map geo_interface gs)),
             set_pos self 0,
             events_from (file_type d) (type self) (pos self)
               (remaining d (pos self))))
  /\
  (forall gs fuel n,
     pos self = 0 ->
     0 < n <= len (shapes d) ->
     map fst (decode_from (file_type d) (type self) 0
                (firstn (Z.to_nat n) (shapes d))) = map (@Ok _) gs ->
     read fuel n self =
       Some (Ok (GeoSeries (map geo_interface gs)),
             set_pos self n,
             events_from (file_type d) (type self) 0
               (firstn (Z.to_nat n) (shapes d)))).
Proof.
  intros d self Hd. split.
  - intros gs fuel n Hp Hn Hdec Ht Hf. unfold read.
    replace (n <? 0) with true by (symmetry; lia).
    rewrite (@read_while_records (remaining d (pos self)) fuel d self [] gs);
      try assumption; try reflexivity.
    pose proof (length_remaining d (pos self)). lia.
  - intros gs fuel n Hp Hn Hdec. unfold read.
    replace (n <? 0) with false by (symmetry; lia).
    replace (n =? 0) with false by (symmetry; lia).
    assert (List.length (firstn (Z.to_nat n) (shapes d)) = Z.to_nat n) as Hlen
      by (rewrite length_firstn; unfold len in Hn; lia).
    replace (Z.to_nat n)
      with (List.length (firstn (Z.to_nat n) (shapes d)) + 0)%nat at 1 by lia.
    rewrite (@read_for_records (firstn (Z.to_nat n) (shapes d))
               (skipn (Z.to_nat n) (shapes d)) 0%nat d self [] gs);
      try assumption; try (rewrite Hp; assumption); try lia; auto.
    + rewrite Hp. simpl. rewrite app_nil_r, geo_interfaces_ok. simpl.
      unfold len. rewrite Hlen, Z2Nat.id by lia. reflexivity.
    + rewrite Hp. unfold remaining. simpl. symmetry. apply firstn_skipn.
Qed.

(** C7: a read of [n > 0] records that runs into the end of the data
    does not return the records read so far.  Each [_read] past the end
    returns [None], no [StopIteration] is raised, so the loop runs all
    its turns and [None.__geo_interface__] raises [AttributeError];
    the cursor stays after the last record.  A read of 0 records
    returns [None] and leaves the session as it was. *)
Theorem read_past_end_raises : forall d self gs fuel n,
  dataObj self = Some d ->
  0 <= pos self ->
  map fst (decode_from (file_type d) (type self) (pos self)
             (remaining d (pos self))) = map (@Ok _) gs ->
  len (remaining d (pos self)) < n ->
  read fuel n self =
    Some (Raise (AttributeError "__geo_interface__"),
          set_pos self (pos self + len (remaining d (pos self))),
          events_from (file_type d) (type self) (pos self)
            (remaining d (pos self)))
  /\ read fuel 0 self = Some (Ok (PyNone _), self, []).
Proof.
  intros d self gs fuel n Hd Hp Hdec Hn. split; [|reflexivity].
  unfold read. unfold len in Hn.
  replace (n <? 0) with false by (symmetry; lia).
  replace (n =? 0) with false by (symmetry; lia).
  replace (Z.to_nat n)
    with (List.length (remaining d (pos self))
          + (Z.to_nat n - List.length (remaining d (pos self))))%nat by lia.
  rewrite (@read_for_records (remaining d (pos self)) [] _ d self [] gs);
    try assumption; auto using app_nil_r.
  simpl. rewrite geo_interfaces_raise by lia. reflexivity.
Qed.

(** ** Cutting the written vertex run back into parts *)

Lemma py_getitem_nth : forall (A : Type) (l : list A) k a,
  nth_error l k = Some a -> py_getitem l (Z.of_nat k) = Ok a.
Proof.
  intros A l k a H. unfold py_getitem.
  assert (k < List.length l)%nat as L by (apply nth_error_Some; congruence).
  replace (Z.of_nat k <? 0) with false by (symmetry; lia).
  replace ((0 <=? Z.of_nat k) && (Z.of_nat k <? Z.of_nat (List.length l)))
    with true by (symmetry; apply andb_true_intro; split; lia).
  rewrite Nat2Z.id, H. reflexivity.
Qed.

Lemma slice_bound_inside : forall n i, 0 <= i <= n -> slice_bound n i = i.
Proof.
  intros n i H. unfold slice_bound.
  destruct (Z.ltb_spec i 0); lia.
Qed.

Lemma py_slice_middle : forall (A : Type) (pre p rest : list A),
  py_slice (pre ++ p ++ rest) (Some (len pre)) (Some (len pre + len p)) = p.
Proof.
  intros A pre p rest. unfold py_slice, len.
  rewrite !slice_bound_inside by (rewrite !length_app; lia).
  replace (Z.to_nat (Z.of_nat (List.length pre) + Z.of_nat (List.length p)
                     - Z.of_nat (List.length pre)))
    with (List.length p + 0)%nat by lia.
  rewrite Nat2Z.id.
  rewrite skipn_app, skipn_all, Nat.sub_diag. simpl.
  rewrite firstn_app_2. simpl. apply app_nil_r.
Qed.

Lemma py_slice_tail : forall (A : Type) (pre p : list A),
  py_slice (pre ++ p) (Some (len pre)) None = p.
Proof.
  intros A pre p. unfold py_slice, len.
  rewrite !slice_bound_inside by (rewrite !length_app; lia).
  rewrite length_app.
  replace (Z.to_nat (Z.of_nat (List.length pre + List.length p)
                     - Z.of_nat (List.length pre)))
    with (List.length p) by lia.
  rewrite Nat2Z.id.
  rewrite skipn_app, skipn_all, Nat.sub_diag. simpl.
  apply firstn_all.
Qed.

Lemma part_offsets_length : forall lengths start,
  List.length (part_offsets start lengths) = List.length lengths.
Proof.
  induction lengths as [|l ls IH]; intros start; simpl; [reflexivity|].
  rewrite IH. reflexivity.
Qed.

Lemma part_offsets_nth : forall pre start l rest,
  nth_error (part_offsets start (pre ++ l :: rest)) (List.length pre)
    = Some (start + fold_right Z.add 0 pre).
Proof.
  induction pre as [|a pre IH]; intros start l rest; simpl.
  - f_equal. lia.
  - rewrite IH. f_equal. lia.
Qed.

(** The entries [partsIndex[i]] and [partsIndex[i + 1]] that bound
    the part after [pre]. *)
Lemma index_bounds : forall (pre ps : list (list (vertex coord))) part,
  let partsIndex :=
    map (@Some Z) (part_offsets 0 (map (@len _) (pre ++ part :: ps))) ++ [None] in
  py_getitem partsIndex (Z.of_nat (List.length pre))
    = Ok (Some (len (List.concat pre)))
  /\ py_getitem partsIndex (Z.of_nat (List.length pre) + 1)
     = Ok match ps with
          | [] => None
          | _ :: _ => Some (len (List.concat pre) + len part)
          end.
Proof.
  intros pre ps part partsIndex. subst partsIndex. split.
  - apply py_getitem_nth. rewrite nth_error_app1.
    + rewrite nth_error_map, map_app. simpl.
      rewrite <- (length_map (@len (vertex coord)) pre) at 1.
      rewrite part_offsets_nth, len_concat. reflexivity.
    + rewrite length_map, part_offsets_length, length_map, length_app. simpl. lia.
  - replace (Z.of_nat (List.length pre) + 1) with (Z.of_nat (S (List.length pre))) by lia.
    apply py_getitem_nth. destruct ps as [|q ps].
    + rewrite nth_error_app2;
        rewrite length_map, part_offsets_length, length_map, length_app;
        cbn [List.length]; [|lia].
      replace (S (List.length pre) - (List.length pre + 1))%nat with 0%nat by lia.
      reflexivity.
    + rewrite nth_error_app1.
      * rewrite nth_error_map.
        replace (pre ++ part :: q :: ps) with ((pre ++ [part]) ++ q :: ps)
          by (rewrite <- app_assoc; reflexivity).
        rewrite (map_app _ (pre ++ [part])). cbn [map].
        replace (S (List.length pre))
          with (List.length (map (@len (vertex coord)) (pre ++ [part])))
          by (rewrite length_map, length_app; cbn [List.length]; lia).
        rewrite part_offsets_nth, <- len_concat.
        rewrite concat_app, (@len_app _ (List.concat pre)). simpl.
        rewrite app_nil_r. reflexivity.
      * rewrite length_map, part_offsets_length, length_map, length_app. simpl. lia.
Qed.

Lemma cut_parts : forall (ps pre : list (list (vertex coord))),
  comprehension
    (fun i =>
       a <- py_getitem
              (map (@Some Z) (part_offsets 0 (map (@len _) (pre ++ ps))) ++ [None]) i ;;
       b <- py_getitem
              (map (@Some Z) (part_offsets 0 (map (@len _) (pre ++ ps))) ++ [None])
              (i + 1) ;;
       Ok (py_slice (List.concat (pre ++ ps)) a b))
    (map Z.of_nat (seq (List.length pre) (List.length ps)))
  = Ok ps.
Proof.
  induction ps as [|part ps IH]; intros pre; [reflexivity|].
  cbn [List.length seq map comprehension].
  destruct (index_bounds pre ps part) as [Ha Hb]. cbv zeta in Ha, Hb.
  rewrite Ha, Hb. cbn [bind].
  assert (py_slice (List.concat (pre ++ part :: ps))
            (Some (len (List.concat pre)))
            match ps with
            | [] => None
            | _ :: _ => Some (len (List.concat pre) + len part)
            end = part) as Hslice.
  { rewrite concat_app. cbn [List.concat]. destruct ps.
    - cbn [List.concat]. rewrite app_nil_r. apply py_slice_tail.
    - apply py_slice_middle. }
  rewrite Hslice.
  specialize (IH (pre ++ [part])).
  rewrite <- app_assoc, length_app in IH. cbn [app List.length] in IH.
  replace (List.length pre + 1)%nat with (S (List.length pre)) in IH by lia.
  rewrite IH. reflexivity.
Qed.

Lemma comprehension_ext : forall (A B : Type) (f g : A -> Outcome B) l,
  (forall a, f a = g a) -> comprehension f l = comprehension g l.
Proof.
  intros A B f g l H. induction l as [|a l IH]; simpl; [reflexivity|].
  rewrite H, IH. reflexivity.
Qed.

(** Cutting the vertex run of a written record at its part index
    gives back the parts that were written. *)
Lemma split_parts_written : forall (all_parts : list (list (vertex coord))) rec,
  Parts_Index rec = Some (parts_index all_parts) ->
  Vertices rec = Some (List.concat all_parts) ->
  split_parts rec (len all_parts) = Ok all_parts.
Proof.
  intros all_parts rec Hpi Hv. unfold split_parts, xrange, len.
  rewrite Hpi, Nat2Z.id. cbn [getitem bind].
  destruct all_parts as [|p ps]; [reflexivity|].
  rewrite parts_index_offsets by discriminate.
  etransitivity; [|apply (cut_parts (p :: ps) [])].
  cbn [List.length app].
  apply comprehension_ext. intros i. rewrite Hv. reflexivity.
Qed.

(** ** Writing a geometry and reading it back *)

Local Abbreviation written_file := (written_file bounding_box SHAPE_TYPES).
Local Abbreviation read_back := (read_back is_clockwise).
Local Abbreviation round_trip := (round_trip is_clockwise bounding_box SHAPE_TYPES).

Lemma __firstWrite_plain : forall shape self,
  plain shape ->
  __firstWrite shape self =
    __writer shape
      (set_write
         (set_dataObj
            (set_type self (type_string (TYPE_TO_STRING (type_of shape))))
            (mk_shp_file (TYPE_TO_STRING (type_of shape)) []))
         write_writer).
Proof.
  intros shape self Hp. unfold __firstWrite.
  destruct shape as [x y more az am | parts | parts holes]; try reflexivity.
  simpl in Hp. destruct Hp as [H1 H2]. cbn [type_of TYPE_TO_STRING].
  change ("POINT" =? "POINT")%string with true. cbv iota.
  unfold point_len, len.
  destruct (Z.eqb_spec (2 + Z.of_nat (List.length more)) 3); [lia|].
  destruct (Z.eqb_spec (2 + Z.of_nat (List.length more)) 4); [lia|].
  reflexivity.
Qed.

Lemma written_file_plain : forall shape rec,
  plain shape ->
  encode (TYPE_TO_STRING (type_of shape)) shape = Ok rec ->
  written_file shape = Ok (mk_shp_file (TYPE_TO_STRING (type_of shape)) [rec]).
Proof.
  intros shape rec Hp He. unfold written_file.
  replace (snd (__init__ (mk_shp_file "" []) "w"))
    with (mkSession "w" 0 (@None (shp_file coord)) (type_unset) write_firstWrite)
    by reflexivity.
  unfold write. cbn [write_attr]. rewrite __firstWrite_plain by exact Hp.
  erewrite __writer_match; [| reflexivity | reflexivity | exact He].
  reflexivity.
Qed.

(** A point of three or four coordinates is refused by its own first
    write: the session type becomes POINTM or POINTZ, which is not the
    type string of the point class. *)
Lemma written_file_point_m_z : forall x y more az am,
  List.length more = 1%nat \/ List.length more = 2%nat ->
  written_file (Point x y more az am) = Raise TypeError.
Proof.
  intros x y more az am H. unfold written_file, write, __firstWrite, __writer.
  cbn. unfold point_len, len.
  destruct H as [H|H]; rewrite H; reflexivity.
Qed.

Lemma read_back_first : forall (d : shp_file coord) c rec rest,
  dict_get STRING_TO_TYPE (file_type d) = Some c ->
  shapes d = rec :: rest ->
  read_back d =
    (shp <- fst (decode (file_type d) (type_class c) 1 rec) ;; Ok (Some shp),
     mkSession "r" 1 (Some d) (type_class c) write_inherited,
     snd (decode (file_type d) (type_class c) 1 rec)).
Proof.
  intros d c rec rest Hc Hs. unfold read_back.
  replace (snd (__init__ d "r"))
    with (mkSession "r" 0 (Some d) (type_class c) write_inherited)
    by (unfold __init__, __open; cbn; rewrite Hc; reflexivity).
  erewrite _read_record; [reflexivity | reflexivity |].
  unfold get_shape, len. rewrite Hs. reflexivity.
Qed.

(** A point of two coordinates comes back as it was written. *)
Lemma round_trip_point : forall x y st,
  dict_get SHAPE_TYPES "POINT" = Some st ->
  round_trip (Point x y [] None None) = (Ok (Some (Point x y [] None None)), []).
Proof.
  intros x y st H. unfold round_trip.
  erewrite written_file_plain;
    [| simpl; split; discriminate | unfold encode; cbn; rewrite H; reflexivity].
  erewrite read_back_first; [| reflexivity | reflexivity]. reflexivity.
Qed.

(** X20: a polyline with at least one part comes back as it was
    written, empty parts included, and the read warns of nothing. *)
Lemma round_trip_chain : forall parts st,
  dict_get SHAPE_TYPES "ARC" = Some st ->
  parts <> [] ->
  round_trip (Chain parts) = (Ok (Some (Chain parts)), []).
Proof.
  intros parts st H Hne. unfold round_trip.
  destruct (encode_chain parts H) as [bb He].
  erewrite written_file_plain; [| exact I | exact He].
  erewrite read_back_first; [| reflexivity | reflexivity].
  unfold decode, decode_in. cbn [type_of TYPE_TO_STRING String.eqb Ascii.eqb
    Bool.eqb NumParts getitem].
  destruct parts as [|p ps]; [contradiction|]. destruct ps as [|q ps].
  - cbn. rewrite app_nil_r. reflexivity.
  - replace (len (p :: q :: ps) >? 1) with true
      by (unfold len; cbn [List.length]; symmetry; apply Z.gtb_lt; lia).
    rewrite split_parts_written; reflexivity.
Qed.

(** X21: a polygon with one shell and no non-empty hole comes back as
    the polygon with that shell, in the vertex order it was written
    in, and no hole; the read warns exactly when the shell is not
    clockwise. *)
Lemma round_trip_single_shell : forall shell holes st,
  dict_get SHAPE_TYPES "POLYGON" = Some st ->
  reversed_holes holes = [] ->
  round_trip (Polygon [shell] holes) =
    (Ok (Some (Polygon [shell] [])),
     if is_clockwise shell then []
     else [Warn (topology_fixed 1); Print (topology_fixed 1)]).
Proof.
  intros shell holes st H Hh. unfold round_trip.
  destruct (encode_polygon [shell] holes H) as [bb He].
  erewrite written_file_plain; [| exact I | exact He].
  erewrite read_back_first; [| reflexivity | reflexivity].
  cbn [type_of TYPE_TO_STRING]. unfold polygon_parts. rewrite Hh.
  erewrite decode_single_ring; [| reflexivity | reflexivity].
  cbn. rewrite app_nil_r. destruct (is_clockwise shell); reflexivity.
Qed.

(** C1: a polygon written as more than one part, such as one shell
    with one hole, does not come back from the file: the write
    succeeds and the read raises [NameError] on the name [pysal]. *)
Theorem round_trip_multipart_polygon_raises : forall shells holes st,
  dict_get SHAPE_TYPES "POLYGON" = Some st ->
  1 < len shells + len (filter (@list_truth _) holes) ->
  (exists d, written_file (Polygon shells holes) = Ok d)
  /\ round_trip (Polygon shells holes) = (Raise (NameError "pysal"), []).
Proof.
  intros shells holes st H Hn.
  destruct (encode_polygon shells holes H) as [bb He].
  assert (len (polygon_parts shells holes)
          = len shells + len (filter (@list_truth _) holes)) as Hlen
    by (unfold polygon_parts; rewrite len_app, len_reversed_holes; reflexivity).
  unfold round_trip.
  erewrite written_file_plain; [| exact I | exact He].
  split; [eauto|].
  erewrite read_back_first; [| reflexivity | reflexivity].
  cbn [type_of TYPE_TO_STRING].
  erewrite decode_multipart; [reflexivity | reflexivity | | ].
  - rewrite len_reversed_holes. exact Hn.
  - rewrite len_reversed_holes, <- Hlen.
    apply split_parts_written; reflexivity.
Qed.

(** * Further properties of the module *)

Local Abbreviation written := (written bounding_box SHAPE_TYPES).
Local Abbreviation record_fits := (record_fits SHAPE_TYPES).

(** ** What a session in write mode keeps *)

Lemma parts_index_length : forall all_parts : list (list (vertex coord)),
  len (parts_index all_parts) = Z.max 1 (len all_parts).
Proof.
  intros [|p ps]; [reflexivity|].
  rewrite parts_index_offsets by discriminate.
  unfold len. rewrite part_offsets_length, length_map.
  cbn [List.length]. lia.
Qed.

Lemma encode_fits : forall shape rec,
  encode (TYPE_TO_STRING (type_of shape)) shape = Ok rec ->
  record_fits (TYPE_TO_STRING (type_of shape)) rec.
Proof.
  intros shape rec. unfold encode, record_fits.
  destruct (dict_get SHAPE_TYPES (TYPE_TO_STRING (type_of shape))) as [st|] eqn:E;
    [|discriminate].
  destruct shape as [x y more az am | parts | parts holes]; simpl.
  - intros H. inversion H. subst rec. simpl.
    repeat split; discriminate.
  - destruct (bounding_box (Chain parts)) as [[[? ?] ?] ?].
    intros H. inversion H. subst rec. simpl.
    split; [reflexivity|]. split; [discriminate|].
    exists (len parts), (parts_index parts), (List.concat parts).
    repeat split. apply parts_index_length.
  - destruct (bounding_box (Polygon parts holes)) as [[[? ?] ?] ?].
    intros H. inversion H. subst rec. simpl.
    split; [reflexivity|]. split; [discriminate|].
    exists (len parts + len (reversed_holes holes)),
      (parts_index (parts ++ reversed_holes holes)),
      (List.concat (parts ++ reversed_holes holes)).
    repeat split. rewrite parts_index_length, len_app. reflexivity.
Qed.

Local Abbreviation write_state := (write_state SHAPE_TYPES).

Lemma __writer_keeps_state : forall shape self r self' ev,
  write_state self ->
  dataObj self <> None ->
  __writer shape self = (r, self', ev) ->
  write_state self' /\ dataObj self' <> None.
Proof.
  intros shape self r self' ev Hs Hd. unfold write_state in Hs.
  destruct (dataObj self) as [d|] eqn:Ed; [|contradiction].
  destruct Hs as [Hp [Hw [Ht Hf]]].
  unfold __writer. rewrite Ht, Ed.
  destruct (String.eqb_spec (TYPE_TO_STRING (type_of shape)) (file_type d)) as [E|E];
    simpl.
  - destruct (encode (file_type d) shape) as [rec|e] eqn:He;
      intros H; inversion H; subst self' r ev.
    + unfold write_state. simpl. split; [|discriminate].
      repeat split; try assumption.
      * unfold len. rewrite length_app, Nat2Z.inj_add. simpl.
        unfold len in Hp. lia.
      * apply Forall_app. split; [assumption|]. constructor; [|constructor].
        rewrite <- E in He |- *. apply encode_fits. assumption.
    + unfold write_state. rewrite Ed. split; [auto | discriminate].
  - intros H. inversion H. subst. unfold write_state. rewrite Ed.
    split; [auto | discriminate].
Qed.

Lemma write_keeps_state : forall shape self r self' ev,
  write_state self ->
  write shape self = (r, self', ev) ->
  write_state self'.
Proof.
  intros shape self r self' ev Hs. unfold write.
  pose proof Hs as Hs'. unfold write_state in Hs'.
  destruct (dataObj self) as [d|] eqn:Ed.
  - destruct Hs' as [_ [Hw _]]. rewrite Hw. intros H.
    eapply __writer_keeps_state in H; [apply H | assumption | congruence].
  - destruct Hs' as [Hp Hw]. rewrite Hw. unfold __firstWrite. intros H.
    eapply __writer_keeps_state in H; [apply H | | discriminate].
    unfold write_state. simpl. rewrite Hp. repeat split. constructor.
Qed.

Lemma written_write_state : forall self, written self -> write_state self.
Proof.
  intros self H. induction H as [disk m self Hm Hi | self shape r self' ev _ IH Hw].
  - unfold __init__ in Hi. destruct Hm; subst m; simpl in Hi;
      inversion Hi; subst self; unfold write_state; simpl; auto.
  - eapply write_keeps_state; eassumption.
Qed.

(** X1: in a session in write mode the cursor counts the records of
    the file: after any sequence of writes, of which some may have
    failed, [pos] is the number of records written, which is what
    [__len__] returns. *)
Theorem written_cursor_counts_records : forall self,
  written self -> pos self = __len__ self.
Proof.
  intros self H. apply written_write_state in H. unfold write_state in H.
  unfold __len__. destruct (dataObj self); tauto.
Qed.

(** X2: the file of a session in write mode is homogeneous: its type
    is the type string the session is locked to, and every record in
    it carries the shape type code of that type and the keys [_read]
    looks up for it: X and Y and no part count in a POINT file; part
    count, part index of at least one entry and as many as there are
    parts, vertices and their count in the others. *)
Theorem written_file_homogeneous : forall self d,
  written self ->
  dataObj self = Some d ->
  type self = type_string (file_type d)
  /\ Forall (record_fits (file_type d)) (shapes d).
Proof.
  intros self d H Hd. apply written_write_state in H. unfold write_state in H.
  rewrite Hd in H. destruct H as [_ [_ [Ht Hf]]]. auto.
Qed.

(** X3: a first write of a point of three or four coordinates blocks
    the session: the write raises [TypeError] after the session type
    has been set to POINTM or POINTZ and an empty file of that type has
    been created, and from then on every write, of whatever geometry,
    raises [TypeError] and changes nothing. *)
Theorem mz_point_blocks_session : forall self x y more az am,
  write_attr self = write_firstWrite ->
  List.length more = 1%nat \/ List.length more = 2%nat ->
  exists t self1,
    (t = "POINTM" \/ t = "POINTZ")
    /\ write (Point x y more az am) self = (Raise TypeError, self1, [])
    /\ type self1 = type_string t
    /\ dataObj self1 = Some (mk_shp_file t [])
    /\ pos self1 = pos self
    /\ forall shape, write shape self1 = (Raise TypeError, self1, []).
Proof.
  intros self x y more az am Hw Hl.
  exists (if List.length more =? 1 then "POINTM" else "POINTZ")%nat.
  exists (set_write
            (set_dataObj
               (set_type self
                  (type_string
                     (if List.length more =? 1 then "POINTM" else "POINTZ")%nat))
               (mk_shp_file
                  (if List.length more =? 1 then "POINTM" else "POINTZ")%nat []))
            write_writer).
  split; [destruct Hl as [H|H]; rewrite H; simpl; auto|].
  unfold write at 1. rewrite Hw. unfold __firstWrite, __writer.
  cbn [type_of TYPE_TO_STRING]. change ("POINT" =? "POINT")%string with true.
  cbv iota. unfold point_len, len.
  destruct Hl as [H|H]; rewrite H; cbn;
    (split; [reflexivity|]); repeat split;
    intros shape; unfold write, __writer; cbn; destruct shape; reflexivity.
Qed.

(** ** More on reading one record *)

(** X4: a record that is fetched advances the cursor even when its
    decoding raises: the exception leaves the session with the cursor
    after the record, so the next read does not try it again but
    decodes the record that follows. *)
Theorem failed_read_skips_record : forall d self rec e rec2 g,
  dataObj self = Some d ->
  get_shape d (pos self) = Ok rec ->
  fst (decode (file_type d) (type self) (pos self + 1) rec) = Raise e ->
  get_shape d (pos self + 1) = Ok rec2 ->
  fst (decode (file_type d) (type self) (pos self + 2) rec2) = Ok g ->
  _read self =
    (Raise e, set_pos self (pos self + 1),
     snd (decode (file_type d) (type self) (pos self + 1) rec))
  /\ _read (set_pos self (pos self + 1)) =
       (Ok (Some g), set_pos self (pos self + 2),
        snd (decode (file_type d) (type self) (pos self + 2) rec2)).
Proof.
  intros d self rec e rec2 g Hd Hg He Hg2 Hdec2. split.
  - rewrite (_read_record self Hd Hg), He. reflexivity.
  - rewrite (@_read_record d (set_pos self (pos self + 1)) rec2); simpl;
      try assumption.
    replace (pos self + 1 + 1) with (pos self + 2) by lia.
    rewrite Hdec2. reflexivity.
Qed.

Lemma decode_many_parts : forall ftype ty p (rec : RawRecord coord) n,
  ftype <> "POINT" -> ftype <> "POINTZ" -> ftype <> "POLYGON" ->
  NumParts rec = Some n ->
  1 < n ->
  decode ftype ty p rec =
    (parts <- split_parts rec n ;; call_type ty (a_nested parts) None, []).
Proof.
  intros ftype ty p rec n H1 H2 H3 Hn Hgt. unfold decode, decode_in.
  destruct (String.eqb_spec ftype "POINT"); [contradiction|].
  destruct (String.eqb_spec ftype "POINTZ"); [contradiction|].
  rewrite Hn. simpl. destruct (Z.gtb_spec n 1); [|lia].
  destruct (String.eqb_spec ftype "POLYGON"); [contradiction|].
  reflexivity.
Qed.

(** X5: outside POLYGON files nothing is classified: a record with
    more than one part read from an ARC file yields the polyline of
    its parts in file order, and read from a POLYGONZ file it yields
    the polygon whose shells are all the parts, clockwise or not, and
    which has no hole; neither read looks up [pysal] or warns. *)
Theorem multipart_read_without_classification : forall d self rec n parts,
  opened d self ->
  file_type d = "ARC" \/ file_type d = "POLYGONZ" ->
  get_shape d (pos self) = Ok rec ->
  NumParts rec = Some n ->
  1 < n ->
  split_parts rec n = Ok parts ->
  _read self =
    (Ok (Some (if (file_type d =? "ARC")%string
               then Chain parts else Polygon parts [])),
     set_pos self (pos self + 1), []).
Proof.
  intros d self rec n parts Ho Hf Hg Hn H1 Hs.
  destruct Ho as [Hd [c [Hc Ht]]].
  rewrite (_read_record self Hd Hg), Ht.
  destruct Hf as [Hf|Hf]; rewrite Hf in *; vm_compute in Hc; inversion Hc; subst c;
    rewrite (@decode_many_parts _ _ _ rec n) by (try discriminate; assumption);
    rewrite Hs; reflexivity.
Qed.

(** ** Cutting a record into parts *)

Lemma comprehension_all_ok : forall (A B : Type) (f : A -> Outcome B)
                                    (P : B -> Prop) l,
  (forall a, In a l -> exists b, f a = Ok b /\ P b) ->
  exists bs, comprehension f l = Ok bs
             /\ List.length bs = List.length l /\ Forall P bs.
Proof.
  intros A B f P l. induction l as [|a l IH]; intros H.
  - exists []. simpl. auto.
  - destruct (H a (or_introl eq_refl)) as [b [Hb Pb]].
    destruct IH as [bs [Hbs [Hl HP]]]; [intros x Hx; apply H; right; assumption|].
    exists (b :: bs). simpl. rewrite Hb, Hbs. simpl. auto.
Qed.

Lemma comprehension_first_raise : forall (A B : Type) (f : A -> Outcome B)
                                         l1 a l2 e,
  (forall x, In x l1 -> exists b, f x = Ok b) ->
  f a = Raise e ->
  comprehension f (l1 ++ a :: l2) = Raise e.
Proof.
  intros A B f l1 a l2 e. induction l1 as [|x l1 IH]; intros H Ha; simpl.
  - rewrite Ha. reflexivity.
  - destruct (H x (or_introl eq_refl)) as [b Hb]. rewrite Hb. simpl.
    rewrite IH; [reflexivity | | assumption].
    intros y Hy. apply H. right. assumption.
Qed.

Lemma py_getitem_in_range : forall (A : Type) (l : list A) i,
  0 <= i < len l -> exists a, py_getitem l i = Ok a.
Proof.
  intros A l i [H0 H1]. unfold len in H1.
  destruct (nth_error l (Z.to_nat i)) as [a|] eqn:E.
  - exists a. rewrite <- (Z2Nat.id i) by assumption.
    apply py_getitem_nth. assumption.
  - apply nth_error_None in E. lia.
Qed.

Lemma py_getitem_beyond : forall (A : Type) (l : list A) i,
  len l <= i -> py_getitem l i = Raise IndexError.
Proof.
  intros A l i H. unfold py_getitem, len in *.
  destruct (Z.ltb_spec i 0); [lia|].
  destruct (Z.ltb_spec i (Z.of_nat (List.length l))); [lia|].
  rewrite andb_false_r. reflexivity.
Qed.

Lemma in_xrange : forall n i, In i (xrange n) -> 0 <= i < n.
Proof.
  intros n i H. unfold xrange in H. apply in_map_iff in H.
  destruct H as [k [Hk Hin]]. apply in_seq in Hin. lia.
Qed.

Lemma py_slice_segment : forall (A : Type) (vs : list A) lo hi,
  segment_of vs (py_slice vs lo hi).
Proof.
  intros A vs lo hi. unfold segment_of, py_slice. eauto.
Qed.

(** X6: cutting never fails on the offsets themselves.  When the
    record has its vertices and its part index has at least as many
    entries as the part count says, the cut yields exactly that many
    parts, each a contiguous run of the vertices, whatever the offsets
    are: negative, decreasing or beyond the vertex count. *)
Theorem split_parts_clips_offsets : forall (rec : RawRecord coord) pi vs n,
  Parts_Index rec = Some pi ->
  Vertices rec = Some vs ->
  n <= len pi ->
  exists parts,
    split_parts rec n = Ok parts
    /\ List.length parts = Z.to_nat n
    /\ Forall (segment_of vs) parts.
Proof.
  intros rec pi vs n Hpi Hv Hn. unfold split_parts. rewrite Hpi, Hv.
  cbn [getitem bind].
  destruct (@comprehension_all_ok Z (list (vertex coord))
              (fun i =>
                 vs0 <- Ok vs ;;
                 a <- py_getitem (map (@Some Z) pi ++ [None]) i ;;
                 b <- py_getitem (map (@Some Z) pi ++ [None]) (i + 1) ;;
                 Ok (py_slice vs0 a b))
              (segment_of vs) (xrange n)) as [parts [Hc [Hl HP]]].
  - intros i Hi. apply in_xrange in Hi.
    assert (len (map (@Some Z) pi ++ [None]) = len pi + 1) as Hlen
      by (rewrite len_app; unfold len; rewrite length_map; reflexivity).
    destruct (@py_getitem_in_range _ (map (@Some Z) pi ++ [None]) i) as [a Ha];
      [lia|].
    destruct (@py_getitem_in_range _ (map (@Some Z) pi ++ [None]) (i + 1)) as [b Hb];
      [lia|].
    exists (py_slice vs a b). cbn [bind]. rewrite Ha, Hb. cbn [bind].
    split; [reflexivity | apply py_slice_segment].
  - exists parts. split; [exact Hc|]. split; [|exact HP].
    rewrite Hl. unfold xrange. rewrite length_map, length_seq. reflexivity.
Qed.

Lemma split_parts_short_index : forall (rec : RawRecord coord) pi vs n,
  Parts_Index rec = Some pi ->
  Vertices rec = Some vs ->
  len pi < n ->
  split_parts rec n = Raise IndexError.
Proof.
  intros rec pi vs n Hpi Hv Hn. unfold split_parts. rewrite Hpi, Hv.
  cbn [getitem bind]. unfold xrange, len in *.
  replace (Z.to_nat n)
    with (List.length pi + S (Z.to_nat n - S (List.length pi)))%nat by lia.
  rewrite seq_app, map_app. cbn [seq map plus].
  apply comprehension_first_raise.
  - intros i Hi. apply in_map_iff in Hi. destruct Hi as [k [Hk Hin]].
    apply in_seq in Hin. subst i.
    assert (len (map (@Some Z) pi ++ [None]) = Z.of_nat (List.length pi) + 1)
      as Hlen by (rewrite len_app; unfold len; rewrite length_map; reflexivity).
    destruct (@py_getitem_in_range _ (map (@Some Z) pi ++ [None]) (Z.of_nat k))
      as [a Ha]; [lia|].
    destruct (@py_getitem_in_range _ (map (@Some Z) pi ++ [None]) (Z.of_nat k + 1))
      as [b Hb]; [lia|].
    cbn [bind]. rewrite Ha, Hb. cbn [bind]. eauto.
  - cbn [bind].
    destruct (@py_getitem_in_range _ (map (@Some Z) pi ++ [None])
                (Z.of_nat (List.length pi))) as [a Ha].
    + rewrite len_app. unfold len. rewrite length_map. simpl. lia.
    + rewrite Ha. cbn [bind]. rewrite py_getitem_beyond; [reflexivity|].
      rewrite len_app. unfold len. rewrite length_map. simpl. lia.
Qed.

(** X7: a part count above the number of entries of the part index
    makes the read raise [IndexError], in polyline and polygon files
    alike (in a POLYGON file the parts are cut before [pysal] is
    looked up), and the cursor has moved past the record. *)
Theorem short_part_index_read_raises : forall d self rec pi vs n,
  dataObj self = Some d ->
  file_type d <> "POINT" -> file_type d <> "POINTZ" ->
  get_shape d (pos self) = Ok rec ->
  NumParts rec = Some n ->
  1 < n ->
  Parts_Index rec = Some pi ->
  Vertices rec = Some vs ->
  len pi < n ->
  _read self = (Raise IndexError, set_pos self (pos self + 1), []).
Proof.
  intros d self rec pi vs n Hd H1 H2 Hg Hn Hgt Hpi Hv Hlt.
  rewrite (_read_record self Hd Hg). unfold decode, decode_in.
  destruct (String.eqb_spec (file_type d) "POINT"); [contradiction|].
  destruct (String.eqb_spec (file_type d) "POINTZ"); [contradiction|].
  rewrite Hn. simpl. destruct (Z.gtb_spec n 1); [|lia].
  rewrite (split_parts_short_index rec Hpi Hv Hlt). reflexivity.
Qed.

(** ** Exceptions of a read *)

Lemma bind_not_raising : forall (A B : Type) (m : Outcome A) (k : A -> Outcome B) e,
  m <> Raise e -> (forall a, k a <> Raise e) -> bind m k <> Raise e.
Proof.
  intros A B m k e Hm Hk. destruct m as [a|e']; simpl; [apply Hk|].
  intros H. apply Hm. inversion H. reflexivity.
Qed.

Lemma comprehension_not_raising : forall (A B : Type) (f : A -> Outcome B) l e,
  (forall a, f a <> Raise e) -> comprehension f l <> Raise e.
Proof.
  intros A B f l e H. induction l as [|a l IH]; simpl; [discriminate|].
  apply bind_not_raising; [apply H|]. intros b.
  apply bind_not_raising; [assumption | discriminate].
Qed.

Lemma py_getitem_raises : forall (A : Type) (l : list A) i e,
  py_getitem l i = Raise e -> e = IndexError.
Proof.
  intros A l i e. unfold py_getitem.
  destruct ((0 <=? (if i <? 0 then i + Z.of_nat (List.length l) else i))
            && ((if i <? 0 then i + Z.of_nat (List.length l) else i)
                <? Z.of_nat (List.length l)));
    [destruct (nth_error l _)|]; congruence.
Qed.

Lemma getitem_raises : forall (A : Type) key (field : option A) e,
  getitem key field = Raise e -> e = KeyError key.
Proof.
  intros A key [v|] e; simpl; congruence.
Qed.

Lemma call_type_not_stop : forall ty (a : CtorArg coord) holes,
  call_type ty a holes <> Raise StopIteration.
Proof.
  intros ty a holes. destruct ty as [|c|t]; simpl; try discriminate.
  destruct c, a, holes; simpl; discriminate.
Qed.

Lemma split_parts_not_stop : forall (rec : RawRecord coord) n,
  split_parts rec n <> Raise StopIteration.
Proof.
  intros rec n. unfold split_parts.
  apply bind_not_raising.
  - intros H. apply getitem_raises in H. discriminate.
  - intros pi. apply comprehension_not_raising. intros i.
    apply bind_not_raising.
    + intros H. apply getitem_raises in H. discriminate.
    + intros vs. apply bind_not_raising.
      * intros H. apply py_getitem_raises in H. discriminate.
      * intros a. apply bind_not_raising; [|discriminate].
        intros H. apply py_getitem_raises in H. discriminate.
Qed.

Lemma decode_not_stop : forall ftype ty p (rec : RawRecord coord),
  fst (decode ftype ty p rec) <> Raise StopIteration.
Proof.
  intros ftype ty p rec. unfold decode, decode_in.
  destruct (ftype =? "POINT")%string.
  { simpl. apply bind_not_raising.
    - intros H. apply getitem_raises in H. discriminate.
    - intros x. apply bind_not_raising.
      + intros H. apply getitem_raises in H. discriminate.
      + intros y. apply call_type_not_stop. }
  destruct (ftype =? "POINTZ")%string.
  { simpl. apply bind_not_raising.
    - intros H. apply getitem_raises in H. discriminate.
    - intros x. apply bind_not_raising.
      + intros H. apply getitem_raises in H. discriminate.
      + intros y. apply bind_not_raising; [apply call_type_not_stop|].
        intros shp. apply bind_not_raising.
        * intros H. apply getitem_raises in H. discriminate.
        * intros z. apply bind_not_raising; [|discriminate].
          intros H. apply getitem_raises in H. discriminate. }
  destruct (getitem "NumParts" (NumParts rec)) as [n|e] eqn:En.
  2:{ simpl. intros H. inversion H. subst e.
      apply getitem_raises in En. discriminate. }
  destruct (n >? 1).
  { simpl. apply bind_not_raising; [apply split_parts_not_stop|].
    intros parts. destruct (ftype =? "POLYGON")%string.
    - discriminate.
    - apply call_type_not_stop. }
  destruct (n =? 1).
  2:{ simpl. apply call_type_not_stop. }
  destruct (getitem "Vertices" (Vertices rec)) as [vs|e] eqn:Ev.
  2:{ simpl. intros H. inversion H. subst e.
      apply getitem_raises in Ev. discriminate. }
  destruct (ftype =? "POLYGON")%string; simpl; apply call_type_not_stop.
Qed.

(** X8: [_read] never raises [StopIteration]: it reports the end of
    the data by returning [None], and neither fetching nor decoding a
    record raises that exception.  The [except StopIteration] of the
    loop of [read] therefore never fires. *)
Theorem _read_never_raises_StopIteration : forall self,
  fst (fst (_read self)) <> Raise StopIteration.
Proof.
  intros self. unfold _read.
  destruct (dataObj self) as [d|]; [|simpl; discriminate].
  destruct (get_shape d (pos self)) as [rec|e] eqn:Hg.
  - pose proof (decode_not_stop (file_type d)
                  (type (set_pos self (pos self + 1)))
                  (pos (set_pos self (pos self + 1))) rec) as Hn.
    destruct (decode (file_type d) (type (set_pos self (pos self + 1)))
                (pos (set_pos self (pos self + 1))) rec) as [r ev].
    simpl in *. destruct r as [g|e]; simpl; [discriminate|].
    intros H. apply Hn. inversion H. reflexivity.
  - rewrite (get_shape_raises _ _ Hg). simpl. discriminate.
Qed.

(** ** Reads that follow one another *)

Lemma decode_from_app : forall ftype ty l1 l2 p,
  decode_from ftype ty p (l1 ++ l2) =
    decode_from ftype ty p l1 ++ decode_from ftype ty (p + len l1) l2.
Proof.
  induction l1 as [|rec l1 IH]; intros l2 p; simpl.
  - rewrite Z.add_0_r. reflexivity.
  - rewrite IH. do 3 f_equal. unfold len. cbn [List.length]. lia.
Qed.

Lemma length_decode_from : forall ftype ty l p,
  List.length (decode_from ftype ty p l) = List.length l.
Proof.
  induction l as [|rec l IH]; intros p; simpl; [reflexivity|].
  rewrite IH. reflexivity.
Qed.

Lemma remaining_skipn : forall (d : shp_file coord) p a,
  0 <= p -> 0 <= a ->
  remaining d (p + a) = skipn (Z.to_nat a) (remaining d p).
Proof.
  intros d p a Hp Ha. unfold remaining.
  rewrite skipn_skipn. f_equal. lia.
Qed.

Lemma length_remaining_exact : forall (d : shp_file coord) p,
  0 <= p <= len (shapes d) ->
  len (remaining d p) = len (shapes d) - p.
Proof.
  intros d p H. unfold remaining, len in *. rewrite length_skipn. lia.
Qed.

(** A read of [n] records that are there and decode, from any
    position. *)
Lemma read_from_cursor : forall d self gs fuel n,
  dataObj self = Some d ->
  0 <= pos self ->
  0 < n ->
  pos self + n <= len (shapes d) ->
  map fst (decode_from (file_type d) (type self) (pos self)
             (firstn (Z.to_nat n) (remaining d (pos self)))) = map (@Ok _) gs ->
  read fuel n self =
    Some (Ok (GeoSeries (map geo_interface gs)),
          set_pos self (pos self + n),
          events_from (file_type d) (type self) (pos self)
            (firstn (Z.to_nat n) (remaining d (pos self)))).
Proof.
  intros d self gs fuel n Hd Hp Hn Hle Hdec. unfold read.
  destruct (Z.ltb_spec n 0); [lia|]. destruct (Z.eqb_spec n 0); [lia|].
  assert (List.length (firstn (Z.to_nat n) (remaining d (pos self))) = Z.to_nat n)
    as Hlen.
  { rewrite length_firstn. pose proof (@length_remaining_exact d (pos self)).
    unfold len in *. lia. }
  replace (Z.to_nat n)
    with (List.length (firstn (Z.to_nat n) (remaining d (pos self))) + 0)%nat
    at 1 by lia.
  rewrite (@read_for_records (firstn (Z.to_nat n) (remaining d (pos self)))
             (skipn (Z.to_nat n) (remaining d (pos self))) 0%nat d self [] gs);
    try assumption; auto.
  - simpl. rewrite app_nil_r, geo_interfaces_ok. simpl.
    unfold len. rewrite Hlen, Z2Nat.id by lia. reflexivity.
  - symmetry. apply firstn_skipn.
Qed.

(** X9: a read of [n > 0] records continues where the cursor is: from
    any position with at least [n] records left that decode, it
    returns the geometries of the next [n] records in order and
    advances the cursor by [n]. *)
Theorem partial_read_continues_from_cursor : forall d self gs fuel n,
  dataObj self = Some d ->
  0 <= pos self ->
  0 < n ->
  pos self + n <= len (shapes d) ->
  map fst (decode_from (file_type d) (type self) (pos self)
             (firstn (Z.to_nat n) (remaining d (pos self)))) = map (@Ok _) gs ->
  read fuel n self =
    Some (Ok (GeoSeries (map geo_interface gs)),
          set_pos self (pos self + n),
          events_from (file_type d) (type self) (pos self)
            (firstn (Z.to_nat n) (remaining d (pos self))))
  /\ List.length gs = Z.to_nat n.
Proof.
  intros d self gs fuel n Hd Hp Hn Hle Hdec. split.
  - apply read_from_cursor; assumption.
  - apply (f_equal (@List.length _)) in Hdec.
    rewrite !length_map in Hdec. rewrite <- Hdec.
    rewrite length_decode_from, length_firstn.
    pose proof (@length_remaining_exact d (pos self)). unfold len in *. lia.
Qed.

(** X10: two reads of [a] and [b] records in a row return together
    what one read of [a + b] records returns, and leave the same
    session: the geometries of the second read follow those of the
    first, and so do the diagnostics. *)
Theorem partial_reads_compose : forall d self gs fuel a b,
  dataObj self = Some d ->
  0 <= pos self ->
  0 < a -> 0 < b ->
  pos self + (a + b) <= len (shapes d) ->
  map fst (decode_from (file_type d) (type self) (pos self)
             (firstn (Z.to_nat (a + b)) (remaining d (pos self)))) = map (@Ok _) gs ->
  exists gs1 gs2 ev1 ev2 self1,
    gs = gs1 ++ gs2
    /\ read fuel a self = Some (Ok (GeoSeries (map geo_interface gs1)), self1, ev1)
    /\ read fuel b self1 =
         Some (Ok (GeoSeries (map geo_interface gs2)),
               set_pos self (pos self + (a + b)), ev2)
    /\ read fuel (a + b) self =
         Some (Ok (GeoSeries (map geo_interface (gs1 ++ gs2))),
               set_pos self (pos self + (a + b)), ev1 ++ ev2).
Proof.
  intros d self gs fuel a b Hd Hp Ha Hb Hle Hdec.
  assert (read fuel (a + b) self =
            Some (Ok (GeoSeries (map geo_interface gs)),
                  set_pos self (pos self + (a + b)),
                  events_from (file_type d) (type self) (pos self)
                    (firstn (Z.to_nat (a + b)) (remaining d (pos self)))))
    as Hab by (apply read_from_cursor; try assumption; lia).
  assert (firstn (Z.to_nat (a + b)) (remaining d (pos self))
          = firstn (Z.to_nat a) (remaining d (pos self))
            ++ firstn (Z.to_nat b) (remaining d (pos self + a))) as Hsplit.
  { rewrite remaining_skipn by lia.
    replace (Z.to_nat (a + b)) with (Z.to_nat a + Z.to_nat b)%nat by lia.
    rewrite <- (firstn_skipn (Z.to_nat a) (remaining d (pos self))) at 1.
    rewrite firstn_app, length_firstn.
    pose proof (@length_remaining_exact d (pos self)). unfold len in *.
    rewrite Nat.min_l by lia.
    rewrite firstn_firstn, Nat.min_r by lia.
    f_equal. f_equal. lia. }
  assert (len (firstn (Z.to_nat a) (remaining d (pos self))) = a) as Hla.
  { unfold len. rewrite length_firstn.
    pose proof (@length_remaining_exact d (pos self)). unfold len in *. lia. }
  rewrite Hsplit, decode_from_app, Hla, map_app in Hdec.
  symmetry in Hdec. apply map_eq_app in Hdec.
  destruct Hdec as [gs1 [gs2 [Hgs [H1 H2]]]]. symmetry in H1, H2.
  exists gs1, gs2. do 2 eexists. exists (set_pos self (pos self + a)).
  split; [exact Hgs|]. split; [|split].
  - apply read_from_cursor; [exact Hd | exact Hp | lia | lia | exact H1].
  - replace (set_pos self (pos self + (a + b)))
      with (set_pos (set_pos self (pos self + a))
                    (pos (set_pos self (pos self + a)) + b))
      by (simpl; unfold set_pos; simpl; f_equal; lia).
    apply read_from_cursor; simpl; [exact Hd | lia | lia | lia | exact H2].
  - rewrite Hab, Hgs, Hsplit, decode_from_app, Hla.
    rewrite (map_app snd), concat_app. reflexivity.
Qed.

(** ** Reads that stop before the end *)

(** The position enters the diagnostics only, not the geometry. *)
Lemma fst_decode_position : forall ftype ty p q (rec : RawRecord coord),
  fst (decode ftype ty p rec) = fst (decode ftype ty q rec).
Proof.
  intros ftype ty p q rec. unfold decode, decode_in.
  destruct (ftype =? "POINT")%string; [reflexivity|].
  destruct (ftype =? "POINTZ")%string; [reflexivity|].
  destruct (getitem "NumParts" (NumParts rec)) as [n|e]; [|reflexivity].
  destruct (n >? 1); [reflexivity|].
  destruct (n =? 1); [|reflexivity].
  destruct (getitem "Vertices" (Vertices rec)) as [vs|e]; [|reflexivity].
  destruct (ftype =? "POLYGON")%string; [|reflexivity].
  destruct (load_global module_globals "cg"); reflexivity.
Qed.

Lemma fst_decode_from_position : forall ftype ty l p q,
  map fst (decode_from ftype ty p l) = map fst (decode_from ftype ty q l).
Proof.
  induction l as [|rec l IH]; intros p q; simpl; [reflexivity|].
  rewrite (IH (p + 1) (q + 1)), (fst_decode_position ftype ty (p + 1) (q + 1)).
  reflexivity.
Qed.

Lemma set_pos_add : forall (self : Session coord) a b,
  set_pos (set_pos self (pos self + a)) (pos (set_pos self (pos self + a)) + b)
  = set_pos self (pos self + (a + b)).
Proof.
  intros self a b. unfold set_pos. simpl. f_equal. lia.
Qed.

(** The [while] loop over a first run of records that decode to true
    objects: it goes on from the record after them. *)
Lemma read_while_prefix : forall recs rest fuel d self acc gs,
  dataObj self = Some d ->
  0 <= pos self ->
  remaining d (pos self) = recs ++ rest ->
  map fst (decode_from (file_type d) (type self) (pos self) recs) = map (@Ok _) gs ->
  forallb truth gs = true ->
  read_while is_clockwise truth (List.length recs + fuel) self acc =
    match read_while is_clockwise truth fuel
            (set_pos self (pos self + len recs)) (acc ++ gs) with
    | Some (r, self', ev') =>
        Some (r, self',
              events_from (file_type d) (type self) (pos self) recs ++ ev')
    | None => None
    end.
Proof.
  induction recs as [|rec recs IH]; intros rest fuel d self acc gs Hd Hp Hr Hdec Ht.
  - destruct gs; [|discriminate]. simpl.
    rewrite set_pos_same by (unfold len; simpl; lia). rewrite app_nil_r.
    destruct (read_while is_clockwise truth fuel self acc) as [[[r s'] ev']|];
      reflexivity.
  - destruct gs as [|g gs]; [discriminate|].
    simpl in Hdec. inversion Hdec as [[Hg1 Hgs]].
    edestruct _read_decoded as [Hread Hl];
      [exact Hd | exact Hp | exact Hr | exact Hg1 |].
    simpl in Ht. apply andb_prop in Ht. destruct Ht as [Htg Htgs].
    cbn [List.length plus read_while]. rewrite Hread, Htg.
    rewrite (IH rest fuel d (set_pos self (pos self + 1)) (acc ++ [g]) gs);
      try assumption; simpl; try lia.
    rewrite <- app_assoc, set_pos_twice. simpl.
    replace (pos self + 1 + len recs) with (pos self + len (rec :: recs))
      by (unfold len; cbn [List.length]; lia).
    destruct (read_while is_clockwise truth fuel
                (set_pos self (pos self + len (rec :: recs))) (acc ++ g :: gs))
      as [[[r s'] ev']|]; [|reflexivity].
    rewrite <- app_assoc. reflexivity.
Qed.

(** The [for] loop over a first run of records that decode. *)
Lemma read_for_prefix : forall recs rest k d self acc gs,
  dataObj self = Some d ->
  0 <= pos self ->
  remaining d (pos self) = recs ++ rest ->
  map fst (decode_from (file_type d) (type self) (pos self) recs) = map (@Ok _) gs ->
  read_for is_clockwise (List.length recs + k) self acc =
    (let '(r, self', ev') :=
       read_for is_clockwise k (set_pos self (pos self + len recs))
                (acc ++ map (@Some _) gs) in
     (r, self', events_from (file_type d) (type self) (pos self) recs ++ ev')).
Proof.
  induction recs as [|rec recs IH]; intros rest k d self acc gs Hd Hp Hr Hdec.
  - destruct gs; [|discriminate]. simpl.
    rewrite set_pos_same by (unfold len; simpl; lia). rewrite app_nil_r.
    destruct (read_for is_clockwise k self acc) as [[r s'] ev']. reflexivity.
  - destruct gs as [|g gs]; [discriminate|].
    simpl in Hdec. inversion Hdec as [[Hg1 Hgs]].
    edestruct _read_decoded as [Hread Hl];
      [exact Hd | exact Hp | exact Hr | exact Hg1 |].
    cbn [List.length plus read_for]. rewrite Hread.
    rewrite (IH rest k d (set_pos self (pos self + 1)) (acc ++ [Some g]) gs);
      try assumption; simpl; try lia.
    rewrite <- app_assoc, set_pos_twice. simpl.
    replace (pos self + 1 + len recs) with (pos self + len (rec :: recs))
      by (unfold len; cbn [List.length]; lia).
    destruct (read_for is_clockwise k
                (set_pos self (pos self + len (rec :: recs)))
                (acc ++ Some g :: map (@Some _) gs)) as [[r s'] ev'].
    rewrite <- app_assoc. reflexivity.
Qed.

Lemma _read_raising : forall d self rec l e,
  dataObj self = Some d ->
  0 <= pos self ->
  remaining d (pos self) = rec :: l ->
  fst (decode (file_type d) (type self) (pos self + 1) rec) = Raise e ->
  _read self = (Raise e, set_pos self (pos self + 1),
                snd (decode (file_type d) (type self) (pos self + 1) rec)).
Proof.
  intros d self rec l e Hd Hp Hr He.
  destruct (remaining_cons d Hp Hr) as [Hg _].
  rewrite (_read_record self Hd Hg), He. reflexivity.
Qed.

Lemma remaining_after : forall (d : shp_file coord) p recs rest,
  0 <= p ->
  remaining d p = recs ++ rest ->
  remaining d (p + len recs) = rest.
Proof.
  intros d p recs rest Hp Hr.
  rewrite remaining_skipn by (unfold len; lia).
  rewrite Hr. unfold len. rewrite Nat2Z.id.
  rewrite skipn_app, skipn_all, Nat.sub_diag. reflexivity.
Qed.

(** X12: an exception raised while decoding a record goes through
    [read]: a read of everything and a read of [n] records that reach
    the record both raise it, return none of the geometries decoded
    before it, and leave the cursor after the failing record; the read
    of everything does not reset the cursor. *)
Theorem read_propagates_decoding_error :
  forall d self recs rec rest gs e fuel n,
  dataObj self = Some d ->
  0 <= pos self ->
  remaining d (pos self) = recs ++ rec :: rest ->
  map fst (decode_from (file_type d) (type self) (pos self) recs) = map (@Ok _) gs ->
  fst (decode (file_type d) (type self) (pos self + len recs + 1) rec) = Raise e ->
  (n < 0 /\ forallb truth gs = true /\ (List.length recs < fuel)%nat)
  \/ len recs < n ->
  read fuel n self =
    Some (Raise e,
          set_pos self (pos self + len recs + 1),
          events_from (file_type d) (type self) (pos self) recs
          ++ snd (decode (file_type d) (type self) (pos self + len recs + 1) rec)).
Proof.
  intros d self recs rec rest gs e fuel n Hd Hp Hr Hdec He Hn.
  assert (_read (set_pos self (pos self + len recs)) =
            (Raise e, set_pos self (pos self + len recs + 1),
             snd (decode (file_type d) (type self) (pos self + len recs + 1) rec)))
    as Hread.
  { rewrite (@_read_raising d (set_pos self (pos self + len recs)) rec rest e);
      simpl; try assumption.
    - reflexivity.
    - unfold len. lia.
    - apply remaining_after; assumption. }
  unfold read. destruct Hn as [[Hn [Ht Hfuel]] | Hn].
  - destruct (Z.ltb_spec n 0); [|lia].
    replace fuel with (List.length recs + S (fuel - S (List.length recs)))%nat by lia.
    rewrite (@read_while_prefix recs (rec :: rest) _ d self [] gs); try assumption.
    cbn [read_while]. rewrite Hread. reflexivity.
  - unfold len in Hn. destruct (Z.ltb_spec n 0); [lia|].
    destruct (Z.eqb_spec n 0); [lia|].
    replace (Z.to_nat n)
      with (List.length recs + S (Z.to_nat n - S (List.length recs)))%nat by lia.
    rewrite (@read_for_prefix recs (rec :: rest) _ d self [] gs); try assumption.
    cbn [read_for]. rewrite Hread.
    destruct e; try reflexivity.
    exfalso. apply (@decode_not_stop (file_type d) (type self)
                      (pos self + len recs + 1) rec). assumption.
Qed.

(** X13: after a read of everything the next read starts from the
    first record: over a file whose records all decode to true
    objects, a read of everything from any position returns the
    geometries from that position on, and a second read of everything
    returns those of the whole file and leaves the session as it is. *)
Theorem full_read_twice : forall d self gs fuel n1 n2,
  dataObj self = Some d ->
  0 <= pos self ->
  map fst (decode_from (file_type d) (type self) 0 (shapes d)) = map (@Ok _) gs ->
  forallb truth gs = true ->
  n1 < 0 -> n2 < 0 ->
  (List.length (shapes d) < fuel)%nat ->
  exists ev1 ev2,
    read fuel n1 self =
      Some (Ok (GeoSeries (map geo_interface (skipn (Z.to_nat (pos self)) gs))),
            set_pos self 0, ev1)
    /\ read fuel n2 (set_pos self 0) =
         Some (Ok (GeoSeries (map geo_interface gs)), set_pos self 0, ev2).
Proof.
  intros d self gs fuel n1 n2 Hd Hp Hdec Ht Hn1 Hn2 Hfuel.
  assert (forall p l, map fst (decode_from (file_type d) (type self) p l)
                      = map (fun rec => fst (decode (file_type d) (type self) 0 rec)) l)
    as Hpos.
  { intros p l. revert p. induction l as [|rec l IH]; intros p; simpl;
      [reflexivity|].
    rewrite IH, (fst_decode_position _ _ (p + 1) 0). reflexivity. }
  do 2 eexists. split.
  - unfold read. destruct (Z.ltb_spec n1 0); [|lia].
    rewrite (@read_while_records (remaining d (pos self)) fuel d self []
               (skipn (Z.to_nat (pos self)) gs)); try assumption; try reflexivity.
    + rewrite Hpos. rewrite Hpos in Hdec. unfold remaining.
      rewrite <- !skipn_map, Hdec. reflexivity.
    + clear - Ht. revert Ht. generalize (Z.to_nat (pos self)).
      induction gs as [|g gs IH]; intros k Ht; destruct k; simpl in *;
        try reflexivity; try assumption.
      apply andb_prop in Ht. destruct Ht. apply IH. assumption.
    + pose proof (length_remaining d (pos self)). lia.
  - unfold read. destruct (Z.ltb_spec n2 0); [|lia].
    rewrite (@read_while_records (shapes d) fuel d (set_pos self 0) [] gs);
      simpl; try assumption; try reflexivity.
Qed.

(** ** More on writing and reading back *)

(** X14: of a point, only X and Y come back.  A point that is not
    refused by the first write (it has two coordinates, or more than
    four) is written to a POINT file and read back as the point of its
    first two coordinates, without the further coordinates and without
    the attributes [Z] and [M] it carried. *)
Theorem round_trip_point_keeps_xy : forall x y more az am st,
  dict_get SHAPE_TYPES "POINT" = Some st ->
  List.length more <> 1%nat ->
  List.length more <> 2%nat ->
  round_trip (Point x y more az am) = (Ok (Some (Point x y [] None None)), []).
Proof.
  intros x y more az am st H H1 H2. unfold round_trip.
  erewrite written_file_plain;
    [| simpl; split; assumption | unfold encode; cbn; rewrite H; reflexivity].
  erewrite read_back_first; [| reflexivity | reflexivity]. reflexivity.
Qed.

(** X16: cutting a written record at its part index gives back the
    parts as they were written: the parts of a polyline, and for a
    polygon its shells followed by its non-empty holes, each hole
    still in the reversed order in which the writer stored it. *)
Theorem written_parts_cut_back :
  (forall parts st,
     dict_get SHAPE_TYPES "ARC" = Some st ->
     exists rec,
       encode "ARC" (Chain parts) = Ok rec
       /\ NumParts rec = Some (len parts)
       /\ split_parts rec (len parts) = Ok parts)
  /\
  (forall shells holes st,
     dict_get SHAPE_TYPES "POLYGON" = Some st ->
     exists rec n,
       encode "POLYGON" (Polygon shells holes) = Ok rec
       /\ NumParts rec = Some n
       /\ split_parts rec n =
            Ok (shells ++ map (@rev _) (filter (@list_truth _) holes))).
Proof.
  split.
  - intros parts st H. destruct (encode_chain parts H) as [bb He].
    eexists. split; [exact He|]. split; [reflexivity|].
    apply split_parts_written; reflexivity.
  - intros shells holes st H. destruct (encode_polygon shells holes H) as [bb He].
    do 2 eexists. split; [exact He|]. split; [reflexivity|].
    replace (len shells + len (reversed_holes holes))
      with (len (polygon_parts shells holes))
      by (unfold polygon_parts; apply len_app).
    apply split_parts_written; reflexivity.
Qed.

(** ** Missing keys *)

(** X17: a point record that lacks a key makes the read raise
    [KeyError] on the first key missing in the order X, Y and, in a
    POINTZ file, Z then M; the cursor has moved past the record. *)
Theorem point_record_missing_key : forall d self rec,
  opened d self ->
  file_type d = "POINT" \/ file_type d = "POINTZ" ->
  get_shape d (pos self) = Ok rec ->
  (X rec = None ->
   _read self = (Raise (KeyError "X"), set_pos self (pos self + 1), []))
  /\ (X rec <> None -> Y rec = None ->
      _read self = (Raise (KeyError "Y"), set_pos self (pos self + 1), []))
  /\ (file_type d = "POINTZ" -> X rec <> None -> Y rec <> None ->
      Z_ rec = None ->
      _read self = (Raise (KeyError "Z"), set_pos self (pos self + 1), []))
  /\ (file_type d = "POINTZ" -> X rec <> None -> Y rec <> None ->
      Z_ rec <> None -> M rec = None ->
      _read self = (Raise (KeyError "M"), set_pos self (pos self + 1), [])).
Proof.
  intros d self rec Ho Hf Hg.
  assert (type self = type_class cg_Point) as Ht
    by (apply (opened_type Ho); destruct Hf as [Hf|Hf]; rewrite Hf; reflexivity).
  destruct Ho as [Hd _].
  rewrite (_read_record self Hd Hg), Ht. unfold decode, decode_in.
  repeat split.
  - intros Hx. destruct Hf as [Hf|Hf]; rewrite Hf; simpl; rewrite Hx; reflexivity.
  - intros Hx Hy. destruct (X rec); [|contradiction].
    destruct Hf as [Hf|Hf]; rewrite Hf; simpl; rewrite Hy; reflexivity.
  - intros Hf' Hx Hy Hz. rewrite Hf'. simpl.
    destruct (X rec); [|contradiction]. destruct (Y rec); [|contradiction].
    simpl. rewrite Hz. reflexivity.
  - intros Hf' Hx Hy Hz Hm. rewrite Hf'. simpl.
    destruct (X rec); [|contradiction]. destruct (Y rec); [|contradiction].
    destruct (Z_ rec); [|contradiction]. simpl. rewrite Hm. reflexivity.
Qed.

(** ** Opening and closing *)

Lemma dict_get_keys : forall (V : Type) (d : list (string * V)) key,
  (exists v, dict_get d key = Some v) <-> In key (map fst d).
Proof.
  intros V d key. induction d as [|[k v] d IH]; unfold dict_get; fold (@dict_get V).
  - split; [intros [v H]; discriminate | intros []].
  - destruct (String.eqb_spec k key) as [E|E]; simpl.
    + split; eauto.
    + rewrite IH. split; [auto | intros [H|H]; [contradiction | assumption]].
Qed.

(** X18: a session in read mode opens exactly the files whose
    declared type is one of POLYGON, POINT, POINTM, POINTZ, ARC and
    POLYGONZ; on them it starts at position 0 with the geometry class
    of the type, and on every other type it raises [TypeError]. *)
Theorem read_mode_opens_supported_types : forall (disk : shp_file coord) m,
  m = "r" \/ m = "rb" ->
  (In (file_type disk) ["POLYGON"; "POINT"; "POINTM"; "POINTZ"; "ARC"; "POLYGONZ"] ->
   exists self, __init__ disk m = (Ok tt, self)
                /\ opened disk self /\ pos self = 0)
  /\ (~ In (file_type disk) ["POLYGON"; "POINT"; "POINTM"; "POINTZ"; "ARC"; "POLYGONZ"] ->
      fst (__init__ disk m) = Raise TypeError).
Proof.
  intros disk m Hm.
  pose proof (dict_get_keys STRING_TO_TYPE (file_type disk)) as Hk.
  change (map fst STRING_TO_TYPE)
    with ["POLYGON"; "POINT"; "POINTM"; "POINTZ"; "ARC"; "POLYGONZ"] in Hk.
  split.
  - intros Hin. apply Hk in Hin. destruct Hin as [c Hc].
    unfold __init__, __open, opened.
    destruct Hm; subst m; simpl; rewrite Hc; eexists;
      (split; [reflexivity|]); simpl; eauto.
  - intros Hnot. unfold __init__, __open.
    destruct (dict_get STRING_TO_TYPE (file_type disk)) as [c|] eqn:E.
    + exfalso. apply Hnot, Hk. eauto.
    + destruct Hm; subst m; reflexivity.
Qed.

(** X19: [close] never returns.  On a session without a file (write
    mode before the first write) it raises [AttributeError] and calls
    nothing; on any other session it closes the file, once, and then
    raises [NameError] on the name [pysal], so the inherited [close]
    is never reached.  The session itself is left as it was. *)
Theorem close_always_raises : forall self : Session coord,
  exists e calls,
    close self = ((Raise e, self, []), calls)
    /\ match dataObj self with
       | None => e = AttributeError "close" /\ calls = []
       | Some d => e = NameError "pysal" /\ calls = [file_close d]
       end.
Proof.
  intros self. unfold close, close_in.
  destruct (dataObj self) as [d|]; do 2 eexists; split; try reflexivity; auto.
Qed.

(** ** Records of one part *)

(** X22: with a part count of 1 the part index is not consulted: the
    whole vertex run is the part, whatever the part index holds and
    even without one.  The read yields the polyline or the polygon of
    that single part, and warns, and prints the warning, only for a
    POLYGON file whose ring is not clockwise. *)
Theorem single_part_read_ignores_index : forall d self rec vs,
  opened d self ->
  file_type d = "ARC" \/ file_type d = "POLYGON" \/ file_type d = "POLYGONZ" ->
  get_shape d (pos self) = Ok rec ->
  NumParts rec = Some 1 ->
  Vertices rec = Some vs ->
  _read self =
    (Ok (Some (if (file_type d =? "ARC")%string
               then Chain [vs] else Polygon [vs] [])),
     set_pos self (pos self + 1),
     if (file_type d =? "POLYGON")%string && negb (is_clockwise vs)
     then [Warn (topology_fixed (pos self + 1));
           Print (topology_fixed (pos self + 1))]
     else []).
Proof.
  intros d self rec vs Ho Hf Hg Hn Hv.
  destruct Ho as [Hd [c [Hc Ht]]].
  rewrite (_read_record self Hd Hg), Ht. unfold decode, decode_in.
  destruct Hf as [Hf | [Hf | Hf]]; rewrite Hf in *; vm_compute in Hc;
    inversion Hc; subst c; simpl; rewrite Hn; simpl; rewrite Hv; simpl;
    try reflexivity; destruct (is_clockwise vs); reflexivity.
Qed.

(** ** Copying a POINTZ file *)

(** X23: a point read from a POINTZ file carries [Z] and [M] as
    attributes, not as coordinates, so writing it to a new session
    creates a POINT file whose record has X and Y only: a copy made by
    reading and writing loses the type of the file and both values. *)
Theorem pointz_copy_becomes_point : forall d self rec x y z m st,
  opened d self ->
  file_type d = "POINTZ" ->
  get_shape d (pos self) = Ok rec ->
  X rec = Some x -> Y rec = Some y -> Z_ rec = Some z -> M rec = Some m ->
  dict_get SHAPE_TYPES "POINT" = Some st ->
  _read self = (Ok (Some (Point x y [] (Some z) (Some m))),
                set_pos self (pos self + 1), [])
  /\ written_file (Point x y [] (Some z) (Some m)) =
       Ok (mk_shp_file "POINT"
             [mkRawRecord (Some st) (Some x) (Some y) None None
                          None None None None None None None None]).
Proof.
  intros d self rec x y z m st Ho Hf Hg Hx Hy Hz Hm Hst. split.
  - apply (pointz_record_read Ho Hf Hg Hx Hy Hz Hm).
  - erewrite written_file_plain; [reflexivity | simpl; split; discriminate |].
    unfold encode. cbn. rewrite Hst. reflexivity.
Qed.

End Properties.

(** * The statements on concrete sessions *)

Import Fixture.

Ltac opened_as c :=
  split; [reflexivity | exists c; split; reflexivity].

Lemma zero_part_record_read_witness :
  get_shape no_part_arc_file 0 = Ok no_part_arc_record
  /\ exists r ev,
       _read (new_reader no_part_arc_file) =
         (r, set_pos (new_reader no_part_arc_file)
                     (pos (new_reader no_part_arc_file) + 1), ev)
       /\ ev = [Warn (zero_parts (pos (new_reader no_part_arc_file) + 1))]
       /\ warnings_of ev = [zero_parts (pos (new_reader no_part_arc_file) + 1)]
       /\ (pos (new_reader no_part_arc_file) = 0 ->
           warnings_of ev = [zero_parts 1])
       /\ (file_type no_part_arc_file = "ARC" ->
           type (new_reader no_part_arc_file) = type_class cg_Chain
           /\ r = Ok (Some (Chain [[]]))).
Proof.
  split; [reflexivity|].
  apply (@zero_part_record_read Z is_clockwise no_part_arc_file
           (new_reader no_part_arc_file) no_part_arc_record).
  - opened_as cg_Chain.
  - left. reflexivity.
  - reflexivity.
  - reflexivity.
Defined.

(** C9 as stated fails on the first record of a stream: it is read
    with the cursor at 0, and the warning it raises names 1, not 0. *)
Lemma zero_part_warning_names_1 :
  pos (new_reader no_part_arc_file) = 0
  /\ get_shape no_part_arc_file 0 = Ok no_part_arc_record
  /\ NumParts no_part_arc_record = Some 0
  /\ warnings_of (snd (_read (new_reader no_part_arc_file))) = [zero_parts 1]
  /\ warnings_of (snd (_read (new_reader no_part_arc_file))) <> [zero_parts 0].
Proof.
  split; [reflexivity|]. split; [reflexivity|]. split; [reflexivity|].
  split; [reflexivity|].
  vm_compute. intros H. discriminate H.
Qed.

Lemma ccw_single_ring_read_witness :
  is_clockwise ccw_triangle = false
  /\ exists ev,
       _read (new_reader ccw_polygon_file) =
         (Ok (Some (Polygon [ccw_triangle] [])),
          set_pos (new_reader ccw_polygon_file)
                  (pos (new_reader ccw_polygon_file) + 1), ev)
       /\ warnings_of ev = [topology_fixed (pos (new_reader ccw_polygon_file) + 1)]
       /\ (pos (new_reader ccw_polygon_file) = 0 ->
           warnings_of ev = [topology_fixed 1]).
Proof.
  split; [reflexivity|].
  apply (@ccw_single_ring_read Z is_clockwise ccw_polygon_file
           (new_reader ccw_polygon_file)
           (nth 0 (shapes ccw_polygon_file) (empty_rec Z)) ccw_triangle).
  - opened_as cg_Polygon.
  - reflexivity.
  - reflexivity.
  - reflexivity.
  - reflexivity.
  - reflexivity.
Defined.

(** C6 as stated fails on the first record of a stream: it is read
    with the cursor at 0, and the warning it raises names 1, not 0. *)
Lemma first_record_warning_names_1 :
  pos (new_reader ccw_polygon_file) = 0
  /\ warnings_of (snd (_read (new_reader ccw_polygon_file))) = [topology_fixed 1]
  /\ warnings_of (snd (_read (new_reader ccw_polygon_file))) <> [topology_fixed 0].
Proof.
  split; [reflexivity|]. split; [reflexivity|].
  vm_compute. intros H. discriminate H.
Qed.

Lemma pointm_record_read_raises_witness :
  dict_get STRING_TO_TYPE (file_type pointm_file) = Some cg_Point
  /\ type (new_reader pointm_file) = type_class cg_Point
  /\ _read (new_reader pointm_file) =
       (Raise (KeyError "NumParts"),
        set_pos (new_reader pointm_file) (pos (new_reader pointm_file) + 1), []).
Proof.
  split; [reflexivity|].
  apply (@pointm_record_read_raises Z is_clockwise pointm_file
           (new_reader pointm_file) pointm_record).
  - opened_as cg_Point.
  - reflexivity.
  - reflexivity.
  - reflexivity.
Defined.

Lemma multipart_polygon_read_raises_witness :
  split_parts (nth 0 (shapes holed_polygon_file) (empty_rec Z)) 2
    = Ok [cw_square; rev small_cw]
  /\ _read (new_reader holed_polygon_file) =
       (Raise (NameError "pysal"),
        set_pos (new_reader holed_polygon_file)
                (pos (new_reader holed_polygon_file) + 1), [])
  /\ decode_in is_clockwise ("pysal" :: module_globals)
               (file_type holed_polygon_file)
               (type (new_reader holed_polygon_file))
               (pos (new_reader holed_polygon_file) + 1)
               (nth 0 (shapes holed_polygon_file) (empty_rec Z)) =
       (Ok (Polygon (filter is_clockwise [cw_square; rev small_cw])
                    (filter (fun part => negb (is_clockwise part))
                            [cw_square; rev small_cw])), []).
Proof.
  split; [reflexivity|].
  assert (opened holed_polygon_file (new_reader holed_polygon_file)) as Ho
    by opened_as cg_Polygon.
  destruct (@multipart_polygon_read_raises Z is_clockwise holed_polygon_file
              (new_reader holed_polygon_file)
              (nth 0 (shapes holed_polygon_file) (empty_rec Z)) 2
              [cw_square; rev small_cw] Ho eq_refl eq_refl eq_refl eq_refl eq_refl)
    as [Hraise Hbound].
  split; [exact Hraise|].
  apply Hbound. left. reflexivity.
Defined.

Lemma all_ccw_polygon_read_raises_witness :
  Forall (fun part => is_clockwise part = false) [ccw_triangle; rev small_cw]
  /\ fst (fst (_read (new_reader all_ccw_file))) = Raise (NameError "pysal")
  /\ decode_in is_clockwise ("pysal" :: module_globals)
               (file_type all_ccw_file)
               (type (new_reader all_ccw_file))
               (pos (new_reader all_ccw_file) + 1)
               (nth 0 (shapes all_ccw_file) (empty_rec Z)) =
       (Ok (Polygon [] [ccw_triangle; rev small_cw]), []).
Proof.
  assert (Forall (fun part => is_clockwise part = false)
                 [ccw_triangle; rev small_cw]) as Hccw
    by (repeat constructor).
  split; [exact Hccw|].
  assert (opened all_ccw_file (new_reader all_ccw_file)) as Ho
    by opened_as cg_Polygon.
  destruct (@all_ccw_polygon_read_raises Z is_clockwise all_ccw_file
              (new_reader all_ccw_file)
              (nth 0 (shapes all_ccw_file) (empty_rec Z)) 2
              [ccw_triangle; rev small_cw]
              Ho eq_refl eq_refl eq_refl eq_refl eq_refl Hccw)
    as [_ [Hraise Hbound]].
  split; [exact Hraise|].
  apply Hbound. left. reflexivity.
Defined.

Lemma write_on_locked_session_witness :
  locked_by bounding_box SHAPE_TYPES cg_Point point_session
  /\ write (Polygon [cw_triangle] []) point_session
     = (Raise TypeError, point_session, [])
  /\ exists d rec self',
       dataObj point_session = Some d
       /\ encode (TYPE_TO_STRING cg_Point) point_34 = Ok rec
       /\ write point_34 point_session = (Ok tt, self', [])
       /\ dataObj self' = Some (add_shape d rec)
       /\ shapes (add_shape d rec) = shapes d ++ [rec]
       /\ pos self' = pos point_session + 1.
Proof.
  assert (locked_by bounding_box SHAPE_TYPES cg_Point point_session) as Hl
    by (apply (@locked_write Z bounding_box SHAPE_TYPES cg_Point new_writer
                 point_12 point_session []); reflexivity).
  split; [exact Hl|]. split.
  - apply (@write_on_locked_session Z bounding_box SHAPE_TYPES cg_Point
             point_session (Polygon [cw_triangle] []) Hl).
    discriminate.
  - apply (@write_on_locked_session Z bounding_box SHAPE_TYPES cg_Point
             point_session point_34 Hl).
    reflexivity.
Defined.



Lemma full_read_resets_partial_read_advances_witness :
  read 4 (-1) (set_pos (new_reader points_file) 1) =
    Some (Ok (GeoSeries [point_34; point_56]),
          set_pos (set_pos (new_reader points_file) 1) 0, [])
  /\ read 0 2 (new_reader points_file) =
       Some (Ok (GeoSeries [point_12; point_34]),
             set_pos (new_reader points_file) 2, []).
Proof.
  split.
  - apply (proj1 (@full_read_resets_partial_read_advances Z is_clockwise truth
                    (Geometry Z) geo_interface points_file
                    (set_pos (new_reader points_file) 1) eq_refl)
             [point_34; point_56] 4%nat (-1)).
    + vm_compute. intros H. discriminate H.
    + reflexivity.
    + reflexivity.
    + reflexivity.
    + vm_compute. lia.
  - apply (proj2 (@full_read_resets_partial_read_advances Z is_clockwise truth
                    (Geometry Z) geo_interface points_file
                    (new_reader points_file) eq_refl)
             [point_12; point_34] 0%nat 2).
    + reflexivity.
    + vm_compute. split; [reflexivity | intros H; discriminate H].
    + reflexivity.
Defined.

Lemma read_past_end_raises_witness :
  len (remaining points_file 0) < 5
  /\ read 0 5 (new_reader points_file) =
       Some (Raise (AttributeError "__geo_interface__"),
             set_pos (new_reader points_file) 3, [])
  /\ read 0 0 (new_reader points_file) =
       Some (Ok (PyNone _), new_reader points_file, []).
Proof.
  split; [reflexivity|].
  apply (@read_past_end_raises Z is_clockwise truth (Geometry Z) geo_interface
           points_file (new_reader points_file)
           [point_12; point_34; point_56] 0%nat 5).
  - reflexivity.
  - vm_compute. intros H. discriminate H.
  - reflexivity.
  - reflexivity.
Defined.

Lemma round_trip_multipart_polygon_raises_witness :
  (exists d, written_file bounding_box SHAPE_TYPES
               (Polygon [cw_square] [small_cw]) = Ok d)
  /\ round_trip (Polygon [cw_square] [small_cw]) = (Raise (NameError "pysal"), []).
Proof.
  apply (@round_trip_multipart_polygon_raises Z is_clockwise bounding_box
           SHAPE_TYPES [cw_square] [small_cw] 5).
  - reflexivity.
  - reflexivity.
Defined.

(** * Further statements on concrete sessions *)

Lemma written_mixed_session : written bounding_box SHAPE_TYPES mixed_session.
Proof.
  apply (@written_next Z bounding_box SHAPE_TYPES
           (write_all [point_12; Polygon [cw_triangle] []] new_writer)
           point_34 (Ok tt) mixed_session []); [|reflexivity].
  apply (@written_next Z bounding_box SHAPE_TYPES
           (write_all [point_12] new_writer)
           (Polygon [cw_triangle] []) (Raise TypeError)
           (write_all [point_12; Polygon [cw_triangle] []] new_writer) []);
    [|reflexivity].
  apply (@written_next Z bounding_box SHAPE_TYPES new_writer
           point_12 (Ok tt) (write_all [point_12] new_writer) []);
    [|reflexivity].
  apply (@written_new Z bounding_box SHAPE_TYPES (mk_shp_file "" []) "w" new_writer);
    [left; reflexivity | reflexivity].
Defined.

Lemma written_cursor_counts_records_witness :
  pos mixed_session = 2 /\ pos mixed_session = __len__ mixed_session.
Proof.
  split; [reflexivity|].
  apply (@written_cursor_counts_records Z bounding_box SHAPE_TYPES mixed_session).
  exact written_mixed_session.
Defined.

Lemma written_file_homogeneous_witness :
  type mixed_session = type_string (file_type (file_of mixed_session))
  /\ Forall (record_fits SHAPE_TYPES (file_type (file_of mixed_session)))
            (shapes (file_of mixed_session)).
Proof.
  apply (@written_file_homogeneous Z bounding_box SHAPE_TYPES mixed_session
           (file_of mixed_session)).
  - exact written_mixed_session.
  - reflexivity.
Defined.

Lemma mz_point_blocks_session_witness :
  exists t self1,
    (t = "POINTM" \/ t = "POINTZ")
    /\ write (Point 1 2 [3] None None) new_writer = (Raise TypeError, self1, [])
    /\ type self1 = type_string t
    /\ dataObj self1 = Some (mk_shp_file t [])
    /\ pos self1 = pos new_writer
    /\ forall shape, write shape self1 = (Raise TypeError, self1, []).
Proof.
  apply (@mz_point_blocks_session Z bounding_box SHAPE_TYPES new_writer
           1 2 [3] None None).
  - reflexivity.
  - left. reflexivity.
Defined.

Lemma failed_read_skips_record_witness :
  _read (set_pos (new_reader gappy_points_file) 1) =
    (Raise (KeyError "Y"), set_pos (new_reader gappy_points_file) 2, [])
  /\ _read (set_pos (new_reader gappy_points_file) 2) =
       (Ok (Some point_56), set_pos (new_reader gappy_points_file) 3, []).
Proof.
  apply (@failed_read_skips_record Z is_clockwise gappy_points_file
           (set_pos (new_reader gappy_points_file) 1)
           no_y_record (KeyError "Y")
           (nth 2 (shapes points_file) (empty_rec Z)) point_56);
    reflexivity.
Defined.

Lemma multipart_read_without_classification_witness :
  _read (new_reader two_part_arc_file) =
    (Ok (Some (Chain [cw_triangle; cw_square])),
     set_pos (new_reader two_part_arc_file) 1, [])
  /\ _read (new_reader polygonz_file) =
       (Ok (Some (Polygon [cw_square; rev small_cw] [])),
        set_pos (new_reader polygonz_file) 1, []).
Proof.
  split.
  - apply (@multipart_read_without_classification Z is_clockwise
             two_part_arc_file (new_reader two_part_arc_file)
             (nth 0 (shapes two_part_arc_file) (empty_rec Z)) 2
             [cw_triangle; cw_square]).
    + opened_as cg_Chain.
    + left. reflexivity.
    + reflexivity.
    + reflexivity.
    + reflexivity.
    + reflexivity.
  - apply (@multipart_read_without_classification Z is_clockwise
             polygonz_file (new_reader polygonz_file)
             (nth 0 (shapes polygonz_file) (empty_rec Z)) 2
             [cw_square; rev small_cw]).
    + opened_as cg_Polygon.
    + right. reflexivity.
    + reflexivity.
    + reflexivity.
    + reflexivity.
    + reflexivity.
Defined.

Lemma split_parts_clips_offsets_witness :
  split_parts wild_index_record 3
    = Ok [[]; [(0, 4); (4, 0)]; []]
  /\ exists parts,
       split_parts wild_index_record 3 = Ok parts
       /\ List.length parts = Z.to_nat 3
       /\ Forall (segment_of (cw_square ++ cw_triangle)) parts.
Proof.
  split; [reflexivity|].
  apply (@split_parts_clips_offsets Z wild_index_record [5; -2; 100]
           (cw_square ++ cw_triangle) 3).
  - reflexivity.
  - reflexivity.
  - vm_compute. intros H. discriminate H.
Defined.

Lemma short_part_index_read_raises_witness :
  _read (new_reader short_index_file) =
    (Raise IndexError,
     set_pos (new_reader short_index_file)
             (pos (new_reader short_index_file) + 1), []).
Proof.
  apply (@short_part_index_read_raises Z is_clockwise short_index_file
           (new_reader short_index_file) short_index_record [0; 4]
           (cw_square ++ cw_triangle) 3).
  - reflexivity.
  - discriminate.
  - discriminate.
  - reflexivity.
  - reflexivity.
  - reflexivity.
  - reflexivity.
  - reflexivity.
  - reflexivity.
Defined.

Lemma partial_read_continues_from_cursor_witness :
  read 0 2 (set_pos (new_reader points_file) 1) =
    Some (Ok (GeoSeries [point_34; point_56]),
          set_pos (set_pos (new_reader points_file) 1) 3, [])
  /\ List.length [point_34; point_56] = Z.to_nat 2.
Proof.
  apply (@partial_read_continues_from_cursor Z is_clockwise truth (Geometry Z)
           geo_interface points_file (set_pos (new_reader points_file) 1)
           [point_34; point_56] 0%nat 2).
  - reflexivity.
  - vm_compute. intros H. discriminate H.
  - reflexivity.
  - vm_compute. intros H. discriminate H.
  - reflexivity.
Defined.

Lemma partial_reads_compose_witness :
  exists gs1 gs2 ev1 ev2 self1,
    [point_12; point_34; point_56] = gs1 ++ gs2
    /\ read 0 1 (new_reader points_file) =
         Some (Ok (GeoSeries (map geo_interface gs1)), self1, ev1)
    /\ read 0 2 self1 =
         Some (Ok (GeoSeries (map geo_interface gs2)),
               set_pos (new_reader points_file)
                       (pos (new_reader points_file) + (1 + 2)), ev2)
    /\ read 0 (1 + 2) (new_reader points_file) =
         Some (Ok (GeoSeries (map geo_interface (gs1 ++ gs2))),
               set_pos (new_reader points_file)
                       (pos (new_reader points_file) + (1 + 2)), ev1 ++ ev2).
Proof.
  apply (@partial_reads_compose Z is_clockwise truth (Geometry Z) geo_interface
           points_file (new_reader points_file)
           [point_12; point_34; point_56] 0%nat 1 2).
  - reflexivity.
  - vm_compute. intros H. discriminate H.
  - reflexivity.
  - reflexivity.
  - vm_compute. intros H. discriminate H.
  - reflexivity.
Defined.

Lemma read_propagates_decoding_error_witness :
  read 4 (-1) (new_reader gappy_points_file) =
    Some (Raise (KeyError "Y"), set_pos (new_reader gappy_points_file) 2, [])
  /\ read 0 3 (new_reader gappy_points_file) =
       Some (Raise (KeyError "Y"), set_pos (new_reader gappy_points_file) 2, []).
Proof.
  split.
  - apply (@read_propagates_decoding_error Z is_clockwise truth (Geometry Z)
             geo_interface gappy_points_file (new_reader gappy_points_file)
             [nth 0 (shapes points_file) (empty_rec Z)] no_y_record
             [nth 2 (shapes points_file) (empty_rec Z)]
             [point_12] (KeyError "Y") 4%nat (-1)).
    + reflexivity.
    + vm_compute. intros H. discriminate H.
    + reflexivity.
    + reflexivity.
    + reflexivity.
    + left. split; [reflexivity|]. split; [reflexivity|]. vm_compute. lia.
  - apply (@read_propagates_decoding_error Z is_clockwise truth (Geometry Z)
             geo_interface gappy_points_file (new_reader gappy_points_file)
             [nth 0 (shapes points_file) (empty_rec Z)] no_y_record
             [nth 2 (shapes points_file) (empty_rec Z)]
             [point_12] (KeyError "Y") 0%nat 3).
    + reflexivity.
    + vm_compute. intros H. discriminate H.
    + reflexivity.
    + reflexivity.
    + reflexivity.
    + right. reflexivity.
Defined.

Lemma full_read_twice_witness :
  exists ev1 ev2,
    read 4 (-1) (set_pos (new_reader points_file) 2) =
      Some (Ok (GeoSeries (map geo_interface
                  (skipn (Z.to_nat (pos (set_pos (new_reader points_file) 2)))
                         [point_12; point_34; point_56]))),
            set_pos (set_pos (new_reader points_file) 2) 0, ev1)
    /\ read 4 (-7) (set_pos (set_pos (new_reader points_file) 2) 0) =
         Some (Ok (GeoSeries (map geo_interface [point_12; point_34; point_56])),
               set_pos (set_pos (new_reader points_file) 2) 0, ev2).
Proof.
  apply (@full_read_twice Z is_clockwise truth (Geometry Z) geo_interface
           points_file (set_pos (new_reader points_file) 2)
           [point_12; point_34; point_56] 4%nat (-1) (-7)).
  - reflexivity.
  - vm_compute. intros H. discriminate H.
  - reflexivity.
  - reflexivity.
  - reflexivity.
  - reflexivity.
  - vm_compute. lia.
Defined.

Lemma round_trip_point_keeps_xy_witness :
  round_trip (Point 1 2 [] (Some 7) (Some 8)) = (Ok (Some point_12), [])
  /\ round_trip (Point 1 2 [3; 4; 5] None None) = (Ok (Some point_12), []).
Proof.
  split.
  - apply (@round_trip_point_keeps_xy Z is_clockwise bounding_box SHAPE_TYPES
             1 2 [] (Some 7) (Some 8) 1); [reflexivity | discriminate | discriminate].
  - apply (@round_trip_point_keeps_xy Z is_clockwise bounding_box SHAPE_TYPES
             1 2 [3; 4; 5] None None 1); [reflexivity | discriminate | discriminate].
Defined.

Lemma written_parts_cut_back_witness :
  (exists rec,
     encode "ARC" (Chain [cw_triangle; []; cw_square]) = Ok rec
     /\ NumParts rec = Some (len [cw_triangle; []; cw_square])
     /\ split_parts rec (len [cw_triangle; []; cw_square])
        = Ok [cw_triangle; []; cw_square])
  /\
  (exists rec n,
     encode "POLYGON" (Polygon [cw_square] [small_cw; []]) = Ok rec
     /\ NumParts rec = Some n
     /\ split_parts rec n = Ok ([cw_square] ++ [rev small_cw])).
Proof.
  split.
  - apply (proj1 (@written_parts_cut_back Z bounding_box SHAPE_TYPES)
             [cw_triangle; []; cw_square] 3).
    reflexivity.
  - apply (proj2 (@written_parts_cut_back Z bounding_box SHAPE_TYPES)
             [cw_square] [small_cw; []] 5).
    reflexivity.
Defined.

Lemma point_record_missing_key_witness :
  _read (set_pos (new_reader gappy_points_file) 1) =
    (Raise (KeyError "Y"),
     set_pos (set_pos (new_reader gappy_points_file) 1)
             (pos (set_pos (new_reader gappy_points_file) 1) + 1), []).
Proof.
  assert (opened gappy_points_file (set_pos (new_reader gappy_points_file) 1))
    as Ho by opened_as cg_Point.
  apply (proj1 (proj2 (@point_record_missing_key Z is_clockwise gappy_points_file
                         (set_pos (new_reader gappy_points_file) 1) no_y_record
                         Ho (or_introl eq_refl) eq_refl))).
  - discriminate.
  - reflexivity.
Defined.

Lemma read_mode_opens_supported_types_witness :
  (exists self, __init__ points_file "r" = (Ok tt, self)
                /\ opened points_file self /\ pos self = 0)
  /\ fst (__init__ (mk_shp_file "MULTIPOINT" (@nil (RawRecord Z))) "rb")
     = Raise TypeError.
Proof.
  split.
  - apply (proj1 (@read_mode_opens_supported_types Z points_file "r"
                    (or_introl eq_refl))).
    right. left. reflexivity.
  - apply (proj2 (@read_mode_opens_supported_types Z
                    (mk_shp_file "MULTIPOINT" (@nil (RawRecord Z))) "rb"
                    (or_intror eq_refl))).
    vm_compute. intros H.
    repeat (destruct H as [H|H]; [discriminate H|]). exact H.
Defined.

Lemma round_trip_chain_witness :
  round_trip (Chain [cw_triangle; []; cw_square])
    = (Ok (Some (Chain [cw_triangle; []; cw_square])), []).
Proof.
  apply (@round_trip_chain Z is_clockwise bounding_box SHAPE_TYPES
           [cw_triangle; []; cw_square] 3).
  - reflexivity.
  - discriminate.
Defined.

Lemma round_trip_single_shell_witness :
  round_trip (Polygon [ccw_triangle] [[]]) =
    (Ok (Some (Polygon [ccw_triangle] [])),
     if is_clockwise ccw_triangle then []
     else [Warn (topology_fixed 1); Print (topology_fixed 1)]).
Proof.
  apply (@round_trip_single_shell Z is_clockwise bounding_box SHAPE_TYPES
           ccw_triangle [[]] 5); reflexivity.
Defined.

Lemma single_part_read_ignores_index_witness :
  _read (new_reader one_part_arc_file) =
    (Ok (Some (Chain [ccw_triangle])),
     set_pos (new_reader one_part_arc_file) 1, []).
Proof.
  apply (@single_part_read_ignores_index Z is_clockwise one_part_arc_file
           (new_reader one_part_arc_file)
           (nth 0 (shapes one_part_arc_file) (empty_rec Z)) ccw_triangle).
  - opened_as cg_Chain.
  - left. reflexivity.
  - reflexivity.
  - reflexivity.
  - reflexivity.
Defined.

Lemma read_terminates_witness :
  exists r, read 4 (-1) (new_reader points_file) = Some r.
Proof.
  apply (@read_terminates Z is_clockwise truth (Geometry Z) geo_interface
           4%nat (-1) (new_reader points_file)).
  - vm_compute. intros H. discriminate H.
  - vm_compute. lia.
Defined.

Lemma pointz_copy_becomes_point_witness :
  _read (new_reader pointz_file) =
    (Ok (Some (Point 1 2 [] (Some 4) (Some 3))),
     set_pos (new_reader pointz_file) (pos (new_reader pointz_file) + 1), [])
  /\ written_file bounding_box SHAPE_TYPES (Point 1 2 [] (Some 4) (Some 3)) =
       Ok (mk_shp_file "POINT"
             [mkRawRecord (Some 1) (Some 1) (Some 2) None None
                          None None None None None None None None]).
Proof.
  apply (@pointz_copy_becomes_point Z is_clockwise bounding_box SHAPE_TYPES
           pointz_file (new_reader pointz_file) pointz_record 1 2 4 3 1).
  - opened_as cg_Point.
  - reflexivity.
  - reflexivity.
  - reflexivity.
  - reflexivity.
  - reflexivity.
  - reflexivity.
  - reflexivity.
Defined.
